(** * indiapins: lookups over a static table of Indian postal codes

    A shallow embedding of [indiapins/__init__.py]: the validation gate
    ([_clean_zipcode], [_clean]), the loader of [pins.json.bz2] and the five
    public queries [matching], [isvalid], [districtmatch], [coordinates] and
    [nearby], over a model of the Python values the code handles.

    Python values are the values [json.loads] can produce; a [str] is its
    sequence of code points; a [float] is an IEEE binary64 number, with the
    arithmetic of [SpecFloat]; an exception is a value of [result]. *)

From Stdlib Require Import String Ascii.
From Stdlib Require Import ZArith NArith List Bool Lia.
From Stdlib Require Import Permutation Sorted.
From Stdlib Require Import DecimalString.
From Stdlib Require Import SpecFloat.
Import ListNotations.

Set Warnings "-register-all".

Open Scope N_scope.
Open Scope list_scope.

(** ** Text *)

(** A Python [str]: its code points, in order.  [len] is [length]. *)
Definition pystr := list N.

(** A literal of the source, all of whose characters are ASCII. *)
Definition lit (s : string) : pystr :=
  map N_of_ascii (list_ascii_of_string s).

Fixpoint pystr_eqb (a b : pystr) : bool :=
  match a, b with
  | [], [] => true
  | x :: a', y :: b' => (x =? y) && pystr_eqb a' b'
  | _, _ => false
  end.

(** [a < b] on [str]: lexicographic on code points. *)
Fixpoint pystr_ltb (a b : pystr) : bool :=
  match a, b with
  | _, [] => false
  | [], _ :: _ => true
  | x :: a', y :: b' => (x <? y) || ((x =? y) && pystr_ltb a' b')
  end.

(** [sep.join(parts)] on a list of [str]. *)
Fixpoint join (sep : pystr) (parts : list pystr) : pystr :=
  match parts with
  | [] => []
  | [p] => p
  | p :: rest => p ++ sep ++ join sep rest
  end.

(** *** The Unicode database, as far as the code consults it *)

(** First code point of every run of ten decimal digits (general category
    Nd, Unicode 15).  U+1D7CE starts five consecutive runs. *)
Definition decimal_zeros : list N :=
  [ 0x0030; 0x0660; 0x06F0; 0x07C0; 0x0966; 0x09E6; 0x0A66; 0x0AE6;
    0x0B66; 0x0BE6; 0x0C66; 0x0CE6; 0x0D66; 0x0DE6; 0x0E50; 0x0ED0;
    0x0F20; 0x1040; 0x1090; 0x17E0; 0x1810; 0x1946; 0x19D0; 0x1A80;
    0x1A90; 0x1B50; 0x1BB0; 0x1C40; 0x1C50; 0xA620; 0xA8D0; 0xA900;
    0xA9D0; 0xA9F0; 0xAA50; 0xABF0; 0xFF10;
    0x104A0; 0x10D30; 0x11066; 0x110F0; 0x11136; 0x111D0; 0x112F0;
    0x11450; 0x114D0; 0x11650; 0x116C0; 0x11730; 0x118E0; 0x11950;
    0x11C50; 0x11D50; 0x11DA0; 0x11F50; 0x16A60; 0x16AC0; 0x16B50;
    0x1D7CE; 0x1D7D8; 0x1D7E2; 0x1D7EC; 0x1D7F6;
    0x1E140; 0x1E2F0; 0x1E4F0; 0x1E950; 0x1FBF0 ].

(** [Py_UNICODE_TODECIMAL]: the digit a code point stands for, if any. *)
Definition py_todecimal (c : N) : option N :=
  match find (fun z => (z <=? c) && (c <? z + 10)) decimal_zeros with
  | Some z => Some (c - z)
  | None => None
  end.

(** [Py_UNICODE_ISDECIMAL]; the class [\d] of a [str] pattern of [re]. *)
Definition py_isdecimal (c : N) : bool :=
  match py_todecimal c with Some _ => true | None => false end.

Definition is_ascii_digit (c : N) : bool := (0x30 <=? c) && (c <=? 0x39).

(** [Py_UNICODE_ISSPACE]: what [str.strip] removes. *)
Definition py_isspace (c : N) : bool :=
  ((0x09 <=? c) && (c <=? 0x0D)) || ((0x1C <=? c) && (c <=? 0x20))
  || (c =? 0x85) || (c =? 0xA0) || (c =? 0x1680)
  || ((0x2000 <=? c) && (c <=? 0x200A))
  || (c =? 0x2028) || (c =? 0x2029) || (c =? 0x202F) || (c =? 0x205F)
  || (c =? 0x3000).

(** [Py_ISSPACE], the ASCII-only test of the C parsers. *)
Definition c_isspace (c : N) : bool :=
  ((0x09 <=? c) && (c <=? 0x0D)) || (c =? 0x20).

Fixpoint lstrip (sp : N -> bool) (s : pystr) : pystr :=
  match s with
  | c :: r => if sp c then lstrip sp r else s
  | [] => []
  end.

(** [s.strip()]: whitespace removed at both ends. *)
Definition strip (s : pystr) : pystr :=
  rev (lstrip py_isspace (rev (lstrip py_isspace s))).

(** ** Exceptions *)

Inductive exc_type := TypeError | ValueError | OverflowError | KeyError.

Definition exc_type_eqb (a b : exc_type) : bool :=
  match a, b with
  | TypeError, TypeError | ValueError, ValueError
  | OverflowError, OverflowError | KeyError, KeyError => true
  | _, _ => false
  end.

(** A raised exception: its class, and its message when the package chose
    it ([None] for the text the interpreter builds itself). *)
Record exc := Exc { exc_class : exc_type; exc_msg : option string }.

Inductive result (A : Type) :=
| Ok (a : A)
| Raise (e : exc).
Arguments Ok {A} a.
Arguments Raise {A} e.

Definition bind {A B} (r : result A) (k : A -> result B) : result B :=
  match r with
  | Ok a => k a
  | Raise e => Raise e
  end.

Notation "x <- r ;; k" := (bind r (fun x => k))
  (at level 61, r at next level, right associativity).

Definition raise_msg {A} (c : exc_type) (m : string) : result A :=
  Raise (Exc c (Some m)).

(** An exception of a built-in. *)
Definition raise_builtin {A} (c : exc_type) : result A :=
  Raise (Exc c None).

(** [try: r  except cls: handler] *)
Definition try_except {A} (r : result A) (cls : exc_type) (handler : result A)
  : result A :=
  match r with
  | Ok a => Ok a
  | Raise e => if exc_type_eqb (exc_class e) cls then handler else Raise e
  end.

(** [for x in xs: s = body(s, x)], an exception ending the loop. *)
Fixpoint for_each {S X} (body : S -> X -> result S) (xs : list X) (s : S)
  : result S :=
  match xs with
  | [] => Ok s
  | x :: rest => s' <- body s x ;; for_each body rest s'
  end.

(** ** Floating point: IEEE binary64 *)

Definition prec : Z := 53.
Definition emax : Z := 1024.

Definition fsub : spec_float -> spec_float -> spec_float := SFsub prec emax.
Definition fadd : spec_float -> spec_float -> spec_float := SFadd prec emax.
Definition fabs : spec_float -> spec_float := SFabs.
(** [x <= y]; false as soon as one side is a NaN. *)
Definition fle : spec_float -> spec_float -> bool := SFleb.

(** The binary64 number nearest to [(-1)^neg * d * 10^e10], ties to even
    (the rounding of [float("...")] and of a JSON number). *)
Definition float_of_decimal (neg : bool) (d : Z) (e10 : Z) : spec_float :=
  match d with
  | Z0 => S754_zero neg
  | Zpos p =>
      if (0 <=? e10)%Z
      then binary_round prec emax neg (p * Z.to_pos (10 ^ e10)) 0
      else
        let '(q, e, l) :=
          SFdiv_core_binary prec emax (Zpos p) 0 (10 ^ (- e10)) 0 in
        binary_round_aux prec emax neg q e l
  | Zneg _ => S754_nan
  end.

(** [float(n)] for an [int]: nearest binary64, [OverflowError] past the
    largest finite one. *)
Definition float_of_int (n : Z) : result spec_float :=
  match binary_normalize prec emax n 0 false with
  | S754_infinity _ => raise_builtin OverflowError
  | x => Ok x
  end.

(** *** [float(s)] for a [str] *)

(** [_PyUnicode_TransformDecimalAndSpaceToASCII]: an ASCII string is kept;
    otherwise decimal digits of any script become ASCII digits, whitespace
    becomes a blank, and the text is cut at the first other non-ASCII
    character, which is replaced by [?]. *)
Fixpoint transform_chars (s : pystr) : pystr :=
  match s with
  | [] => []
  | c :: r =>
      if c <? 127 then c :: transform_chars r
      else if py_isspace c then 0x20 :: transform_chars r
      else match py_todecimal c with
           | Some d => (0x30 + d) :: transform_chars r
           | None => [0x3F]
           end
  end.

Definition transform_decimal_and_space (s : pystr) : pystr :=
  if forallb (fun c => c <? 128) s then s else transform_chars s.

(** Underscores are dropped; each must stand between two digits. *)
Fixpoint drop_underscores (prev : N) (s : pystr) : option pystr :=
  match s with
  | [] => if prev =? 0x5F then None else Some []
  | c :: r =>
      if c =? 0x5F then
        if is_ascii_digit prev then drop_underscores c r else None
      else if (prev =? 0x5F) && negb (is_ascii_digit c) then None
      else option_map (cons c) (drop_underscores c r)
  end.

Definition take_sign (s : pystr) : bool * pystr :=
  match s with
  | 0x2D :: r => (true, r)
  | 0x2B :: r => (false, r)
  | _ => (false, s)
  end.

(** The longest prefix of ASCII digits, as digit values, and the rest. *)
Fixpoint take_digits (s : pystr) : list N * pystr :=
  match s with
  | c :: r =>
      if is_ascii_digit c
      then let '(ds, rest) := take_digits r in ((c - 0x30) :: ds, rest)
      else ([], s)
  | [] => ([], [])
  end.

Definition digits_value (ds : list N) : Z :=
  fold_left (fun acc d => (10 * acc + Z.of_N d)%Z) ds 0%Z.

Definition to_lower (c : N) : N :=
  if (0x41 <=? c) && (c <=? 0x5A) then c + 0x20 else c.

(** [_Py_parse_inf_or_nan], on a text that must be consumed entirely. *)
Definition parse_inf_or_nan (s : pystr) : option spec_float :=
  let '(neg, body) := take_sign s in
  let low := map to_lower body in
  if pystr_eqb low (lit "inf") || pystr_eqb low (lit "infinity")
  then Some (S754_infinity neg)
  else if pystr_eqb low (lit "nan") then Some S754_nan
  else None.

(** [sign? (digits [. digits?] | . digits) ([eE] sign? digits)?] *)
Definition parse_decimal (s : pystr) : option spec_float :=
  let '(neg, s1) := take_sign s in
  let '(ip, s2) := take_digits s1 in
  let '(fp, s3) :=
    match s2 with
    | 0x2E :: r => take_digits r
    | _ => ([], s2)
    end in
  match ip ++ fp with
  | [] => None
  | mant =>
      let after_exp :=
        match s3 with
        | c :: r =>
            if (c =? 0x65) || (c =? 0x45) then
              let '(eneg, r1) := take_sign r in
              match take_digits r1 with
              | ([], _) => None
              | (ed, r2) =>
                  Some (if eneg then (- digits_value ed)%Z
                        else digits_value ed, r2)
              end
            else Some (0%Z, s3)
        | [] => Some (0%Z, [])
        end in
      match after_exp with
      | Some (e, []) =>
          Some (float_of_decimal neg (digits_value mant)
                  (e - Z.of_nat (length fp)))
      | _ => None
      end
  end.

(** [float(s)]: blanks stripped, then a decimal literal, an infinity or a
    NaN; anything else is a [ValueError]. *)
Definition float_of_str (s : pystr) : result spec_float :=
  let t := transform_decimal_and_space s in
  let t := rev (lstrip c_isspace (rev (lstrip c_isspace t))) in
  let u := if existsb (N.eqb 0x5F) t then drop_underscores 0 t else Some t in
  match u with
  | None => raise_builtin ValueError
  | Some body =>
      match parse_inf_or_nan body with
      | Some x => Ok x
      | None =>
          match parse_decimal body with
          | Some x => Ok x
          | None => raise_builtin ValueError
          end
      end
  end.

(** ** Values *)

(** What a field of a record can hold: the values [json.loads] builds.  A
    [dict] is the list of its items in insertion order, keys distinct. *)
Inductive pyval :=
| PyNone
| PyBool (b : bool)
| PyInt (n : Z)
| PyFloat (x : spec_float)
| PyStr (s : pystr)
| PyList (items : list pyval)
| PyDict (items : list (pystr * pyval)).

Definition pydict := list (pystr * pyval).

(** [bool(v)], the test of [if v:] and of [not v]. *)
Definition truthy (v : pyval) : bool :=
  match v with
  | PyNone => false
  | PyBool b => b
  | PyInt n => negb (n =? 0)%Z
  | PyFloat (S754_zero _) => false
  | PyFloat _ => true
  | PyStr s => negb (Nat.eqb (length s) 0)
  | PyList items => negb (Nat.eqb (length items) 0)
  | PyDict items => negb (Nat.eqb (length items) 0)
  end.

Definition isinstance_str (v : pyval) : bool :=
  match v with PyStr _ => true | _ => false end.

(** [float(v)]: [TypeError] for what is neither text nor a number. *)
Definition py_float (v : pyval) : result spec_float :=
  match v with
  | PyStr s => float_of_str s
  | PyFloat x => Ok x
  | PyInt n => float_of_int n
  | PyBool b => Ok (if b then binary_normalize prec emax 1 0 false
                    else S754_zero false)
  | PyNone | PyList _ | PyDict _ => raise_builtin TypeError
  end.

(** *** Dictionaries with [str] keys *)

Fixpoint dict_find (k : pystr) (d : pydict) : option pyval :=
  match d with
  | [] => None
  | (k', v) :: rest => if pystr_eqb k' k then Some v else dict_find k rest
  end.

(** [k in d] *)
Definition dict_contains (k : pystr) (d : pydict) : bool :=
  match dict_find k d with Some _ => true | None => false end.

(** [d[k]] *)
Definition dict_item (k : pystr) (d : pydict) : result pyval :=
  match dict_find k d with Some v => Ok v | None => raise_builtin KeyError end.

(** [d.get(k, default)]; [d.get(k)] has [default = PyNone]. *)
Definition dict_get (k : pystr) (default : pyval) (d : pydict) : pyval :=
  match dict_find k d with Some v => v | None => default end.

(** *** Equality and hashing, as [set] and [dict] use them *)

Definition int_of_bool (b : bool) : Z := if b then 1%Z else 0%Z.

(** What decides whether two hashable values are the same key: [None],
    a text, an infinity, or a number [m * 2^e] with [m] odd (or zero).  An
    [int], a [bool] and a [float] of the same value are one key. *)
Inductive hkey :=
| KNone
| KStr (s : pystr)
| KNum (m e : Z)
| KInf (neg : bool).

Fixpoint odd_part (p : positive) : positive * Z :=
  match p with
  | xO q => let '(m, k) := odd_part q in (m, (k + 1)%Z)
  | _ => (p, 0%Z)
  end.

(** The key of the number [n * 2^e]. *)
Definition num_key (n e : Z) : hkey :=
  match n with
  | Z0 => KNum 0 0
  | Zpos p => let '(m, k) := odd_part p in KNum (Zpos m) (e + k)
  | Zneg p => let '(m, k) := odd_part p in KNum (Zneg m) (e + k)
  end.

(** No key for a [list] or a [dict] (unhashable), nor for a NaN, which
    equals no other object. *)
Definition key_of (v : pyval) : option hkey :=
  match v with
  | PyNone => Some KNone
  | PyBool b => Some (num_key (int_of_bool b) 0)
  | PyInt n => Some (num_key n 0)
  | PyFloat (S754_zero _) => Some (KNum 0 0)
  | PyFloat (S754_finite s m e) => Some (num_key (cond_Zopp s (Zpos m)) e)
  | PyFloat (S754_infinity s) => Some (KInf s)
  | PyFloat S754_nan => None
  | PyStr s => Some (KStr s)
  | PyList _ | PyDict _ => None
  end.

Definition hkey_eqb (a b : hkey) : bool :=
  match a, b with
  | KNone, KNone => true
  | KStr s, KStr t => pystr_eqb s t
  | KNum m e, KNum m' e' => (m =? m')%Z && (e =? e')%Z
  | KInf x, KInf y => Bool.eqb x y
  | _, _ => false
  end.

(** [a == b] for two hashable values held by different records. *)
Definition py_eq (a b : pyval) : bool :=
  match key_of a, key_of b with
  | Some x, Some y => hkey_eqb x y
  | _, _ => false
  end.

(** [hash(v)] succeeds. *)
Definition hashable (v : pyval) : bool :=
  match v with
  | PyList _ | PyDict _ => false
  | _ => true
  end.

(** A [set]: its elements in insertion order, no two equal. *)
Definition pyset := list pyval.

(** [s.add(v)] *)
Definition set_add (v : pyval) (s : pyset) : result pyset :=
  if hashable v then
    Ok (if existsb (py_eq v) s then s else s ++ [v])
  else raise_builtin TypeError.

(** A [set] whose elements are all [str], as the list of them. *)
Definition strset := list pystr.

Definition strset_add (x : pystr) (s : strset) : strset :=
  if existsb (pystr_eqb x) s then s else s ++ [x].

Definition strset_contains (x : pystr) (s : strset) : bool :=
  existsb (pystr_eqb x) s.

Definition strset_remove (x : pystr) (s : strset) : strset :=
  filter (fun y => negb (pystr_eqb x y)) s.

(** The elements of a set if they are all [str]. *)
Fixpoint all_str (s : pyset) : option strset :=
  match s with
  | [] => Some []
  | PyStr x :: rest => option_map (cons x) (all_str rest)
  | _ :: _ => None
  end.

(** [sorted(xs)] on [str]: a stable sort by [<]. *)
Fixpoint insert_sorted (x : pystr) (xs : list pystr) : list pystr :=
  match xs with
  | [] => [x]
  | y :: rest =>
      if pystr_ltb y x then y :: insert_sorted x rest else x :: xs
  end.

Definition py_sorted (xs : list pystr) : list pystr :=
  fold_right insert_sorted [] xs.

(** [str(n)] for an [int] (the interpreter's limit on the number of digits
    left aside). *)
Definition str_of_int (n : Z) : pystr :=
  lit (NilZero.string_of_int (Z.to_int n)).

(** The answer of [coordinates] for one name. *)
Record coord := Coord { latitude : pystr; longitude : pystr }.

(** A [dict] keyed by any hashable value: items in insertion order. *)
Definition coords_dict := list (pyval * coord).

Fixpoint dict_update (k : pyval) (c : coord) (m : coords_dict) : coords_dict :=
  match m with
  | [] => [(k, c)]
  | (k', c') :: rest =>
      if py_eq k' k then (k', c) :: rest else (k', c') :: dict_update k c rest
  end.

(** [m[k] = c]: the value of an equal key is replaced where it stands. *)
Definition dict_setitem (k : pyval) (c : coord) (m : coords_dict)
  : result coords_dict :=
  if hashable k then Ok (dict_update k c m) else raise_builtin TypeError.

(** [m[k]] read back, [None] when no key equals [k]. *)
Fixpoint coords_lookup (k : pyval) (m : coords_dict) : option coord :=
  match m with
  | [] => None
  | (k', c) :: rest => if py_eq k' k then Some c else coords_lookup k rest
  end.

(** What [json.loads] does with a text: it returns a value, raises
    [JSONDecodeError], or raises something else ([RecursionError] when the
    nesting is too deep, [ValueError] when an integer has too many
    digits). *)
Inductive decoding :=
| Decoded (v : pyval)
| DecodeError
| OtherError.

(** ** Sample data *)

Module Sample.

Definition code_a : pystr := lit "110001".
Definition code_b : pystr := lit "110002".

(** Six Arabic-Indic digits, U+0661 to U+0666. *)
Definition arabic_indic : pystr :=
  [0x661; 0x662; 0x663; 0x664; 0x665; 0x666].

Definition office (code name district lat lon : string) : pydict :=
  [ (lit "Pincode", PyStr (lit code)); (lit "Name", PyStr (lit name));
    (lit "District", PyStr (lit district));
    (lit "Latitude", PyStr (lit lat)); (lit "Longitude", PyStr (lit lon)) ].

(** The two offices of the scenario of the specification. *)
Definition connaught : pydict :=
  office "110001" "Connaught Place" "New Delhi" "28.63" "77.22".
Definition parliament : pydict :=
  office "110001" "Parliament St" "New Delhi" "28.63" "77.21".
Definition delhi : list pydict := [connaught; parliament].

(** A neighbour, its code stored as a number. *)
Definition minto : pydict :=
  [ (lit "Pincode", PyInt 110002); (lit "Name", PyStr (lit "Minto Road"));
    (lit "District", PyStr (lit "Central Delhi"));
    (lit "Latitude", PyStr (lit "28.64"));
    (lit "Longitude", PyStr (lit "77.23")) ].
Definition delhi_and_minto : list pydict := [connaught; parliament; minto].

(** A record of [110001] whose position is the text [NA], ahead of the
    one that has a position. *)
Definition unlocated : pydict :=
  office "110001" "Sansad Marg" "New Delhi" "NA" "NA".
Definition unlocated_first : list pydict := [unlocated; connaught; minto].

(** The only record of the code has the latitude [abc]. *)
Definition bad_center : list pydict :=
  [ office "110001" "Connaught Place" "New Delhi" "abc" "77.22" ].

(** The latitude [abc] on a record of another code. *)
Definition bad_neighbour : list pydict :=
  [ connaught; office "110002" "Minto Road" "Central Delhi" "abc" "77.23" ].

(** A district given as a number. *)
Definition numeric_district : list pydict :=
  [ [ (lit "Pincode", PyStr (lit "110001")); (lit "District", PyInt 5) ] ].

(** A name given as a list. *)
Definition list_name : list pydict :=
  [ [ (lit "Pincode", PyStr (lit "110001")); (lit "Name", PyList []) ] ].

(** An interpreter: sets iterate in insertion order. *)
Definition float_repr (x : spec_float) : pystr := lit "0.0".
Definition str_repr (s : pystr) : pystr := [0x27] ++ s ++ [0x27].
Definition set_order (s : strset) : { l : list pystr | Permutation l s } :=
  exist _ s (Permutation_refl s).

(** A resource of three lines: an object with the code field, text that
    is not JSON, and blanks. *)
Definition valid_text : pystr :=
  lit "{" ++ [0x22] ++ lit "Pincode" ++ [0x22] ++ lit ": 110001}".
Definition valid_line : pystr := valid_text ++ [0x0A].
Definition bad_line : pystr := lit "{not json" ++ [0x0A].
Definition blank_line : pystr := lit "   " ++ [0x0A].
Definition resource : list pystr := [valid_line; bad_line; blank_line].

(** The same resource behind a line of 200000 opening brackets. *)
Definition deep_text : pystr := Pos.iter (cons 0x5B) [] 200000.
Definition deep_line : pystr := deep_text ++ [0x0A].
Definition deep_resource : list pystr :=
  [deep_line; valid_line; blank_line].

(** A decoder that knows the texts of these lines: the one object, the
    nesting too deep for the interpreter (a [RecursionError]), and text
    that is not JSON. *)
Definition json_loads (text : pystr) : decoding :=
  if pystr_eqb text valid_text
  then Decoded (PyDict [(lit "Pincode", PyInt 110001)])
  else if forallb (N.eqb 0x5B) text && (100000 <=? N.of_nat (length text))
  then OtherError
  else DecodeError.

End Sample.

(** ** The package *)

Section Indiapins.

(** What the interpreter supplies: the digits of [repr] of a float, the
    quoting of [repr] of a str, the order in which a set of strings is
    iterated (some arrangement of its elements, which depends on the hash
    seed of the process), and the JSON decoder. *)
Variable float_repr : spec_float -> pystr.
Variable str_repr : pystr -> pystr.
Variable set_order : forall s : strset, { l : list pystr | Permutation l s }.
Variable json_loads : pystr -> decoding.

(** [list(s)] for a set of strings. *)
Definition set_iter (s : strset) : list pystr := proj1_sig (set_order s).

(** The lines of [pins.json.bz2] that could be read (none when the file
    cannot be opened: the loader reports it and goes on). *)
Variable pins_lines : list pystr.

Fixpoint py_repr (v : pyval) : pystr :=
  match v with
  | PyNone => lit "None"
  | PyBool b => lit (if b then "True" else "False")
  | PyInt n => str_of_int n
  | PyFloat x => float_repr x
  | PyStr s => str_repr s
  | PyList items =>
      lit "[" ++ join (lit ", ") (map py_repr items) ++ lit "]"
  | PyDict items =>
      lit "{"
      ++ join (lit ", ")
           (map (fun kv => let '(k, v) := kv in
                           str_repr k ++ lit ": " ++ py_repr v) items)
      ++ lit "}"
  end.

(** [str(v)] *)
Definition py_str (v : pyval) : pystr :=
  match v with
  | PyStr s => s
  | _ => py_repr v
  end.

Definition _valid_zipcode_length : nat := 6.

(** [_digits = re.compile(r"[^\d]")]: [_digits.search(s)] finds a
    character that is not a decimal digit. *)
Definition _digits_search (s : pystr) : bool :=
  existsb (fun c => negb (py_isdecimal c)) s.

Definition _clean (zipcode : pystr) : result pystr :=
  if negb (Nat.eqb (length zipcode) _valid_zipcode_length) then
    raise_msg ValueError "Invalid format, pincode must be exactly 6 digits."
  else if _digits_search zipcode then
    raise_msg ValueError
      "Invalid characters, pincode may only contain digits."
  else Ok zipcode.

(** The decorator: [fn] is the decorated function, its other arguments
    already given. *)
Definition _clean_zipcode {A} (fn : pystr -> result A) (zipcode : pyval)
  : result A :=
  if negb (truthy zipcode) || negb (isinstance_str zipcode) then
    raise_msg TypeError "Invalid type, pincode must be a string."
  else
    match zipcode with
    | PyStr s => z <- _clean s ;; fn z
    | _ => raise_msg TypeError "Invalid type, pincode must be a string."
    end.

(** *** Loading [pins.json.bz2] *)

(** The body of the loop over the lines: the dataset after the line, or
    [None] when [json.loads] raises what [except json.JSONDecodeError]
    does not catch, which leaves the loop for the [except Exception]
    around it. *)
Definition load_line (zips : list pydict) (line : pystr)
  : option (list pydict) :=
  let line := strip line in
  if Nat.eqb (length line) 0 then Some zips
  else
    match json_loads line with
    | DecodeError => Some zips
    | OtherError => None
    | Decoded (PyDict obj) =>
        if negb (dict_contains (lit "Pincode") obj) then Some zips
        else Some (zips ++ [obj])
    | Decoded _ => Some zips
    end.

(** The loop, [zips] being [_zips] so far: what was appended before an
    exception stays. *)
Fixpoint load_lines (lines : list pystr) (zips : list pydict)
  : list pydict :=
  match lines with
  | [] => zips
  | line :: rest =>
      match load_line zips line with
      | Some zips' => load_lines rest zips'
      | None => zips
      end
  end.

Definition load (lines : list pystr) : list pydict :=
  load_lines lines [].

Definition _zips : list pydict := load pins_lines.

(** [zips] after [if zips is None: zips = _zips]. *)
Definition or_default (zips : option (list pydict)) : list pydict :=
  match zips with
  | None => _zips
  | Some zs => zs
  end.

(** *** Core functions *)

Definition matching_body (zipcode : pystr) (zips : option (list pydict))
  : result (list pydict) :=
  let zips := or_default zips in
  for_each
    (fun results entry =>
       if negb (dict_contains (lit "Pincode") entry) then Ok results
       else
         code <- dict_item (lit "Pincode") entry ;;
         if pystr_eqb (py_str code) zipcode then Ok (results ++ [entry])
         else Ok results)
    zips [].

Definition matching (zipcode : pyval) (zips : option (list pydict))
  : result (list pydict) :=
  _clean_zipcode (fun z => matching_body z zips) zipcode.

Definition isvalid (zipcode : pyval) (zips : option (list pydict))
  : result bool :=
  _clean_zipcode
    (fun z =>
       let zips := or_default zips in
       found <- matching (PyStr z) (Some zips) ;;
       Ok (negb (Nat.eqb (length found) 0)))
    zipcode.

(** ["Pincode" in entry and str(entry["Pincode"]) == zipcode] *)
Definition code_matches (zipcode : pystr) (entry : pydict) : result bool :=
  if dict_contains (lit "Pincode") entry then
    code <- dict_item (lit "Pincode") entry ;;
    Ok (pystr_eqb (py_str code) zipcode)
  else Ok false.

Definition districtmatch_body (zipcode : pystr)
  (zips : option (list pydict)) : result pystr :=
  let zips := or_default zips in
  districts <-
    for_each
      (fun districts entry =>
         hit <- code_matches zipcode entry ;;
         if hit then
           let dist := dict_get (lit "District") PyNone entry in
           if truthy dist then set_add dist districts else Ok districts
         else Ok districts)
      zips [] ;;
  if Nat.eqb (length districts) 0 then
    raise_msg ValueError "Invalid Pincode, not found in database"
  else
    match all_str districts with
    | Some names => Ok (join (lit ", ") (set_iter names))
    | None => raise_builtin TypeError
    end.

Definition districtmatch (zipcode : pyval) (zips : option (list pydict))
  : result pystr :=
  _clean_zipcode (fun z => districtmatch_body z zips) zipcode.

Definition coordinates_body (zipcode : pystr)
  (zips : option (list pydict)) : result coords_dict :=
  let zips := or_default zips in
  matches <- matching (PyStr zipcode) (Some zips) ;;
  for_each
    (fun coords_map entry =>
       let name := dict_get (lit "Name") (PyStr (lit "Unknown")) entry in
       let lat := dict_get (lit "Latitude") (PyStr (lit "")) entry in
       let lon := dict_get (lit "Longitude") (PyStr (lit "")) entry in
       dict_setitem name
         {| latitude := py_str lat; longitude := py_str lon |} coords_map)
    matches [].

Definition coordinates (zipcode : pyval) (zips : option (list pydict))
  : result coords_dict :=
  _clean_zipcode (fun z => coordinates_body z zips) zipcode.

(** The default of [max_diff], [0.05]. *)
Definition max_diff_default : spec_float := float_of_decimal false 5 (-2).

(** [abs(lat - center_lat) + abs(lon - center_lon)] *)
Definition distance (lat lon center_lat center_lon : spec_float)
  : spec_float :=
  fadd (fabs (fsub lat center_lat)) (fabs (fsub lon center_lon)).

(** The [try] block of the scan: latitude and longitude of a record as
    floats, [None] where the [except ValueError] clause skips the
    record. *)
Definition record_position (record : pydict)
  : result (option (spec_float * spec_float)) :=
  try_except
    (lat <- py_float (dict_get (lit "Latitude") (PyStr (lit "")) record) ;;
     lon <- py_float (dict_get (lit "Longitude") (PyStr (lit "")) record) ;;
     Ok (Some (lat, lon)))
    ValueError (Ok None).

(** The body of the loop over all records. *)
Definition scan_step (center_lat center_lon max_diff : spec_float)
  (nearby_pins : strset) (record : pydict) : result strset :=
  if negb (dict_contains (lit "Pincode") record) then Ok nearby_pins
  else
    parsed <- record_position record ;;
    match parsed with
    | None => Ok nearby_pins
    | Some (lat, lon) =>
        let dist := distance lat lon center_lat center_lon in
        if fle dist max_diff then
          code <- dict_item (lit "Pincode") record ;;
          Ok (strset_add (py_str code) nearby_pins)
        else Ok nearby_pins
    end.

Definition nearby_body (zipcode : pystr) (max_diff : spec_float)
  (zips : option (list pydict)) : result (list pystr) :=
  let zips := or_default zips in
  center_entries <-
    for_each
      (fun acc z =>
         hit <- code_matches zipcode z ;;
         if hit && truthy (dict_get (lit "Latitude") PyNone z)
            && truthy (dict_get (lit "Longitude") PyNone z)
         then Ok (acc ++ [z]) else Ok acc)
      zips [] ;;
  match center_entries with
  | [] => Ok []
  | center :: _ =>
      lat0 <- dict_item (lit "Latitude") center ;;
      center_lat <- py_float lat0 ;;
      lon0 <- dict_item (lit "Longitude") center ;;
      center_lon <- py_float lon0 ;;
      nearby_pins <-
        for_each (scan_step center_lat center_lon max_diff) zips [] ;;
      let nearby_pins :=
        if strset_contains zipcode nearby_pins
        then strset_remove zipcode nearby_pins
        else nearby_pins in
      Ok (py_sorted (set_iter nearby_pins))
  end.

Definition nearby (zipcode : pyval) (max_diff : spec_float)
  (zips : option (list pydict)) : result (list pystr) :=
  _clean_zipcode (fun z => nearby_body z max_diff zips) zipcode.

(** ** What the queries are specified to compute *)

(** The gate alone: the decorator around a function that hands its
    argument back. *)
Definition gate (zipcode : pyval) : result pystr :=
  _clean_zipcode (fun z => Ok z) zipcode.

Definition nonempty_text (v : pyval) : Prop :=
  exists s, v = PyStr s /\ s <> [].

(** The record carries the code field and its string form is [zipcode]. *)
Definition has_code (zipcode : pystr) (entry : pydict) : bool :=
  match dict_find (lit "Pincode") entry with
  | Some code => pystr_eqb (py_str code) zipcode
  | None => false
  end.

Definition district_of (entry : pydict) : pyval :=
  dict_get (lit "District") PyNone entry.

(** The truthy district values of the records of a code, in dataset
    order, repetitions included. *)
Definition district_values (zipcode : pystr) (zips : list pydict)
  : list pyval :=
  filter truthy (map district_of (filter (has_code zipcode) zips)).

Definition name_of (entry : pydict) : pyval :=
  dict_get (lit "Name") (PyStr (lit "Unknown")) entry.

Definition coord_of (entry : pydict) : coord :=
  {| latitude := py_str (dict_get (lit "Latitude") (PyStr (lit "")) entry);
     longitude :=
       py_str (dict_get (lit "Longitude") (PyStr (lit "")) entry) |}.

(** The last element of [l] that satisfies [p]. *)
Definition find_last {X} (p : X -> bool) (l : list X) : option X :=
  find p (rev l).

(** No two of the keys are equal. *)
Fixpoint distinct_keys (ks : list pyval) : Prop :=
  match ks with
  | [] => True
  | k :: rest =>
      (forall k', In k' rest -> py_eq k k' = false) /\ distinct_keys rest
  end.

(** The record a line of the resource contributes, if any. *)
Definition admitted (line : pystr) : option pydict :=
  match strip line with
  | [] => None
  | text =>
      match json_loads text with
      | Decoded (PyDict obj) =>
          if dict_contains (lit "Pincode") obj then Some obj else None
      | _ => None
      end
  end.

Definition contribution (line : pystr) : list pydict :=
  match admitted line with Some obj => [obj] | None => [] end.

(** The line ends the loading: it is not blank and [json.loads] raises on
    it something else than a [JSONDecodeError]. *)
Definition aborts (line : pystr) : bool :=
  match strip line with
  | [] => false
  | text =>
      match json_loads text with OtherError => true | _ => false end
  end.

(** The lines ahead of the first one that ends the loading. *)
Fixpoint before_abort (lines : list pystr) : list pystr :=
  match lines with
  | [] => []
  | line :: rest => if aborts line then [] else line :: before_abort rest
  end.

(** Latitude and longitude are both truthy. *)
Definition has_position (entry : pydict) : bool :=
  truthy (dict_get (lit "Latitude") PyNone entry)
  && truthy (dict_get (lit "Longitude") PyNone entry).

(** [float(v)] returns. *)
Definition parses (v : pyval) : bool :=
  match py_float v with Ok _ => true | Raise _ => false end.

(** A record of the code with truthy and parseable latitude and
    longitude. *)
Definition is_anchor (zipcode : pystr) (entry : pydict) : bool :=
  has_code zipcode entry && has_position entry
  && parses (dict_get (lit "Latitude") PyNone entry)
  && parses (dict_get (lit "Longitude") PyNone entry).

(** The scan gets past the record: its latitude and longitude parse, or
    fail with the [ValueError] the loop catches. *)
Definition scannable (record : pydict) : Prop :=
  dict_contains (lit "Pincode") record = true ->
  exists p, record_position record = Ok p.

(** The records [nearby] takes its centre from: head first. *)
Definition center_candidates (zipcode : pystr) (zips : list pydict)
  : list pydict :=
  filter (fun z => has_code zipcode z && has_position z) zips.

(** The set a run of [add] builds from texts. *)
Definition strset_of (xs : list pystr) (s : strset) : strset :=
  fold_left (fun acc x => strset_add x acc) xs s.

(** The texts among some values. *)
Definition texts (vals : list pyval) : list pystr :=
  flat_map (fun v => match v with PyStr s => [s] | _ => [] end) vals.

(** The mapping after the loop of [coordinates] over [matches]. *)
Definition coords_fold (matches : list pydict) (m : coords_dict)
  : coords_dict :=
  fold_left (fun acc e => dict_update (name_of e) (coord_of e) acc)
    matches m.

(** The order of [sorted] on texts. *)
Definition str_le (a b : pystr) : Prop := pystr_ltb b a = false.
Definition str_lt (a b : pystr) : Prop := pystr_ltb a b = true.

(** A float that is not below zero: a NaN or one whose sign bit is
    clear. *)
Definition sign_clear (x : spec_float) : Prop :=
  match x with
  | S754_nan => True
  | S754_zero s | S754_infinity s | S754_finite s _ _ => s = false
  end.

(** ** Properties *)

(** *** Text *)

Lemma pystr_eqb_eq (a b : pystr) : pystr_eqb a b = true <-> a = b.
Proof.
  revert b; induction a as [|x a IH]; intros [|y b]; simpl;
    try (split; [discriminate | congruence]); try tauto.
  rewrite andb_true_iff, N.eqb_eq, IH.
  split; [intros [-> ->]; reflexivity | intros H; inversion H; auto].
Qed.

Lemma pystr_eqb_refl (a : pystr) : pystr_eqb a a = true.
Proof. apply pystr_eqb_eq; reflexivity. Qed.

Lemma pystr_eqb_neq (a b : pystr) : pystr_eqb a b = false <-> a <> b.
Proof.
  rewrite <- pystr_eqb_eq. destruct (pystr_eqb a b); split; congruence.
Qed.

(** *** Loops *)

Lemma for_each_pure {S X} (body : S -> X -> result S) (f : S -> X -> S) :
  (forall s x, body s x = Ok (f s x)) ->
  forall xs s, for_each body xs s = Ok (fold_left f xs s).
Proof.
  intros Hb xs; induction xs as [|x xs IH]; intros s; simpl.
  - reflexivity.
  - rewrite Hb; simpl. apply IH.
Qed.

Lemma fold_left_keep {X} (p : X -> bool) (xs acc : list X) :
  fold_left (fun r x => if p x then r ++ [x] else r) xs acc
  = acc ++ filter p xs.
Proof.
  revert acc; induction xs as [|x xs IH]; intros acc; simpl.
  - now rewrite app_nil_r.
  - rewrite IH. destruct (p x); [now rewrite <- app_assoc | reflexivity].
Qed.

(** *** The gate *)

Lemma gate_bind {A} (fn : pystr -> result A) (v : pyval) :
  _clean_zipcode fn v = bind (gate v) fn.
Proof.
  unfold gate, _clean_zipcode.
  destruct (negb (truthy v) || negb (isinstance_str v)); [reflexivity|].
  destruct v as [| b | n | x | s | items | items]; try reflexivity.
  destruct (_clean s); reflexivity.
Qed.

Lemma gate_text (s : pystr) : s <> [] -> gate (PyStr s) = _clean s.
Proof.
  intros Hs. unfold gate, _clean_zipcode. destruct s as [|c s]; [congruence|].
  simpl. destruct (_clean (c :: s)); reflexivity.
Qed.

Lemma gate_not_text (v : pyval) :
  ~ nonempty_text v ->
  gate v = raise_msg TypeError "Invalid type, pincode must be a string.".
Proof.
  intros Hn. unfold gate, _clean_zipcode.
  destruct v as [| b | n | x | s | items | items];
    try (match goal with
         | |- (if ?c then _ else _) = _ => destruct c; reflexivity
         end).
  destruct s as [|c s]; [reflexivity|].
  exfalso; apply Hn. exists (c :: s). split; [reflexivity | discriminate].
Qed.

Lemma digits_search_spec (s : pystr) :
  _digits_search s = true <-> exists c, In c s /\ py_isdecimal c = false.
Proof.
  unfold _digits_search. rewrite existsb_exists.
  split; intros [c [Hin Hc]]; exists c; split; auto.
  - now apply negb_true_iff.
  - now apply negb_true_iff.
Qed.

Lemma digits_search_none (s : pystr) :
  _digits_search s = false <-> forall c, In c s -> py_isdecimal c = true.
Proof.
  split.
  - intros H c Hin. destruct (py_isdecimal c) eqn:E; [reflexivity|].
    assert (_digits_search s = true) by (apply digits_search_spec; eauto).
    congruence.
  - intros H. destruct (_digits_search s) eqn:E; [|reflexivity].
    apply digits_search_spec in E. destruct E as [c [Hin Hc]].
    rewrite (H c Hin) in Hc. discriminate.
Qed.

Lemma clean_cases (s : pystr) :
  (length s <> 6%nat /\
     _clean s = raise_msg ValueError
                  "Invalid format, pincode must be exactly 6 digits.")
  \/ (length s = 6%nat /\ _digits_search s = true /\
        _clean s = raise_msg ValueError
                     "Invalid characters, pincode may only contain digits.")
  \/ (length s = 6%nat /\ _digits_search s = false /\ _clean s = Ok s).
Proof.
  unfold _clean, _valid_zipcode_length.
  destruct (Nat.eqb (length s) 6) eqn:E; simpl.
  - apply Nat.eqb_eq in E. right.
    destruct (_digits_search s); [left | right]; auto.
  - apply Nat.eqb_neq in E. left; auto.
Qed.

Lemma gate_ok_inv (v : pyval) (z : pystr) :
  gate v = Ok z -> v = PyStr z /\ _clean z = Ok z.
Proof.
  intros H. destruct v as [| b | n | x | s | items | items];
    try (rewrite gate_not_text in H;
         [discriminate | intros [t [E _]]; discriminate]).
  destruct s as [|c s].
  - rewrite gate_not_text in H; [discriminate|].
    intros [t [E Ht]]. inversion E; subst. congruence.
  - rewrite gate_text in H by discriminate.
    destruct (clean_cases (c :: s)) as [[_ E]|[[_ [_ E]]|[_ [_ E]]]];
      rewrite E in H; try discriminate.
    inversion H; subst. split; [reflexivity | exact E].
Qed.

Lemma gate_ok_run {A} (fn : pystr -> result A) (v : pyval) (z : pystr) :
  gate v = Ok z -> _clean_zipcode fn v = fn z.
Proof. intros H. rewrite gate_bind, H. reflexivity. Qed.

Lemma gate_cases (v : pyval) :
  (~ nonempty_text v /\
     gate v = raise_msg TypeError "Invalid type, pincode must be a string.")
  \/ (exists s, v = PyStr s /\ s <> [] /\ gate v = _clean s).
Proof.
  destruct v as [| b | n | x | s | items | items];
    try (left; split;
         [intros [t [E _]]; discriminate
         | apply gate_not_text; intros [t [E _]]; discriminate]).
  destruct s as [|c s].
  - left. assert (Hn : ~ nonempty_text (PyStr [])).
    { intros [t [E Ht]]. inversion E; subst. congruence. }
    split; [exact Hn | now apply gate_not_text].
  - right. exists (c :: s). split; [reflexivity|].
    split; [discriminate | apply gate_text; discriminate].
Qed.

(** C1, as the code has it.  The gate raises [TypeError] exactly on what
    is not a non-empty text; on a non-empty text it raises [ValueError]
    exactly when the length is not 6 or some character is not a decimal
    digit of the Unicode database (the class [\d] of a text pattern,
    which is wider than [0-9]); otherwise it succeeds and hands the text
    on unchanged.  The decorated function runs only after the gate
    succeeded, so a failure of the gate is the outcome of each of the five
    queries whatever the dataset. *)
Theorem gate_spec (v : pyval) :
  ((exists m, gate v = Raise (Exc TypeError m)) <-> ~ nonempty_text v)
  /\ ((exists m, gate v = Raise (Exc ValueError m)) <->
       exists s, v = PyStr s /\ s <> [] /\
         (length s <> 6%nat \/ exists c, In c s /\ py_isdecimal c = false))
  /\ ((exists z, gate v = Ok z) <->
       exists s, v = PyStr s /\ length s = 6%nat /\
         forall c, In c s -> py_isdecimal c = true)
  /\ (forall z, gate v = Ok z -> v = PyStr z)
  /\ (forall A (fn : pystr -> result A),
        _clean_zipcode fn v = bind (gate v) fn)
  /\ (forall e, gate v = Raise e ->
        forall zips max_diff,
          matching v zips = Raise e /\ isvalid v zips = Raise e
          /\ districtmatch v zips = Raise e /\ coordinates v zips = Raise e
          /\ nearby v max_diff zips = Raise e).
Proof.
  split; [|split; [|split; [|split; [|split]]]].
  - destruct (gate_cases v) as [[Hn E]|[s [-> [Hs E]]]].
    + split; [intros _; exact Hn | intros _; eexists; exact E].
    + split.
      * intros [m Hm]. rewrite E in Hm.
        destruct (clean_cases s) as [[_ C]|[[_ [_ C]]|[_ [_ C]]]];
          rewrite C in Hm; discriminate.
      * intros Hn. exfalso. apply Hn. exists s. auto.
  - destruct (gate_cases v) as [[Hn E]|[s [-> [Hs E]]]].
    + split.
      * intros [m Hm]. rewrite E in Hm. discriminate.
      * intros [s [-> [Hs _]]]. exfalso; apply Hn; exists s; auto.
    + rewrite E. split.
      * intros [m Hm]. exists s. split; [reflexivity|]. split; [exact Hs|].
        destruct (clean_cases s) as [[L C]|[[L [D C]]|[L [D C]]]].
        -- left; exact L.
        -- right. now apply digits_search_spec.
        -- rewrite C in Hm. discriminate.
      * intros [t [Et [_ [L|D]]]]; inversion Et; subst t.
        -- destruct (clean_cases s) as [[_ C]|[[L' _]|[L' _]]];
             [rewrite C; eexists; reflexivity | congruence | congruence].
        -- apply digits_search_spec in D.
           destruct (clean_cases s) as [[_ C]|[[_ [_ C]]|[_ [D' _]]]];
             [rewrite C; eexists; reflexivity
             | rewrite C; eexists; reflexivity | congruence].
  - destruct (gate_cases v) as [[Hn E]|[s [-> [Hs E]]]].
    + split.
      * intros [z Hz]. rewrite E in Hz. discriminate.
      * intros [s [-> [L _]]]. exfalso. apply Hn. exists s.
        split; [reflexivity|]. intros ->. discriminate.
    + rewrite E. split.
      * intros [z Hz]. exists s. split; [reflexivity|].
        destruct (clean_cases s) as [[_ C]|[[_ [_ C]]|[L [D _]]]];
          try (rewrite C in Hz; discriminate).
        split; [exact L | now apply digits_search_none].
      * intros [t [Et [L D]]]. inversion Et; subst t.
        apply digits_search_none in D.
        destruct (clean_cases s) as [[L' _]|[[_ [D' _]]|[_ [_ C]]]];
          [congruence | congruence | rewrite C; eexists; reflexivity].
  - intros z Hz. now apply gate_ok_inv in Hz.
  - intros A fn. apply gate_bind.
  - intros e He zips max_diff.
    unfold matching, isvalid, districtmatch, coordinates, nearby.
    rewrite !gate_bind, He. simpl. repeat split.
Qed.

(** *** Exact match *)

Lemma matching_body_filter (z : pystr) (zips : option (list pydict)) :
  matching_body z zips = Ok (filter (has_code z) (or_default zips)).
Proof.
  unfold matching_body.
  rewrite (for_each_pure _
             (fun r e => if has_code z e then r ++ [e] else r)).
  - now rewrite fold_left_keep.
  - intros r e. unfold dict_contains, dict_item, has_code.
    destruct (dict_find (lit "Pincode") e) as [code|]; simpl;
      [destruct (pystr_eqb (py_str code) z)|]; reflexivity.
Qed.

Lemma matching_filter (v : pyval) (z : pystr) (zips : option (list pydict)) :
  gate v = Ok z ->
  matching v zips = Ok (filter (has_code z) (or_default zips)).
Proof.
  intros Hg. unfold matching. rewrite (gate_ok_run _ _ _ Hg).
  apply matching_body_filter.
Qed.

Lemma has_code_iff (z : pystr) (e : pydict) :
  has_code z e = true
  <-> exists code, dict_find (lit "Pincode") e = Some code /\ py_str code = z.
Proof.
  unfold has_code. destruct (dict_find (lit "Pincode") e) as [code|].
  - rewrite pystr_eqb_eq. split.
    + intros H. exists code. auto.
    + intros [c [E H]]. inversion E; subst. reflexivity.
  - split; [discriminate | intros [c [E _]]; discriminate].
Qed.

(** C2.  For a validated code, [matching] returns the records whose code
    field, as a string, equals the code: all of them, each as often as it
    occurs, in the order of the dataset, be it the bundled one or one the
    caller supplies. *)
Theorem matching_spec (v : pyval) (z : pystr)
  (zips : option (list pydict)) :
  gate v = Ok z ->
  exists found,
    matching v zips = Ok found
    /\ found = filter (has_code z) (or_default zips)
    /\ (forall e,
          In e found
          <-> In e (or_default zips)
              /\ exists code,
                   dict_find (lit "Pincode") e = Some code
                   /\ py_str code = z)
    /\ or_default None = _zips
    /\ (forall zs, or_default (Some zs) = zs).
Proof.
  intros Hg. exists (filter (has_code z) (or_default zips)).
  split; [now apply matching_filter|]. split; [reflexivity|].
  split; [|split; reflexivity].
  intros e. rewrite filter_In, has_code_iff. reflexivity.
Qed.

(** *** Records of a code *)

Lemma code_matches_ok (z : pystr) (e : pydict) :
  code_matches z e = Ok (has_code z e).
Proof.
  unfold code_matches, dict_contains, dict_item, has_code.
  destruct (dict_find (lit "Pincode") e); reflexivity.
Qed.

Lemma filter_nil_all {X} (p : X -> bool) (l : list X) :
  (forall x, In x l -> p x = false) -> filter p l = [].
Proof.
  induction l as [|x l IH]; intros H; simpl; [reflexivity|].
  rewrite (H x (or_introl eq_refl)). apply IH.
  intros y Hy. apply H. now right.
Qed.

Lemma gate_of_validated (v : pyval) (z : pystr) :
  gate v = Ok z -> gate (PyStr z) = Ok z.
Proof. intros H. now destruct (gate_ok_inv _ _ H) as [-> _]. Qed.

Lemma district_loop (z : pystr) (zs : list pydict) (acc : pyset) :
  for_each
    (fun districts entry =>
       hit <- code_matches z entry ;;
       if hit then
         let dist := dict_get (lit "District") PyNone entry in
         if truthy dist then set_add dist districts else Ok districts
       else Ok districts)
    zs acc
  = for_each (fun districts d => set_add d districts)
      (district_values z zs) acc.
Proof.
  unfold district_values.
  revert acc; induction zs as [|e zs IH]; intros acc; simpl;
    [reflexivity|].
  rewrite code_matches_ok; simpl.
  destruct (has_code z e); simpl; [|apply IH].
  fold (district_of e). destruct (truthy (district_of e)); simpl.
  - destruct (set_add (district_of e) acc); simpl; [apply IH | reflexivity].
  - apply IH.
Qed.

Lemma center_loop (z : pystr) (zs : list pydict) :
  for_each
    (fun acc e =>
       hit <- code_matches z e ;;
       if hit && truthy (dict_get (lit "Latitude") PyNone e)
          && truthy (dict_get (lit "Longitude") PyNone e)
       then Ok (acc ++ [e]) else Ok acc)
    zs []
  = Ok (center_candidates z zs).
Proof.
  rewrite (for_each_pure _
             (fun r e =>
                if has_code z e && has_position e then r ++ [e] else r)).
  - now rewrite fold_left_keep.
  - intros r e. rewrite code_matches_ok; simpl.
    unfold has_position. rewrite andb_assoc.
    now destruct (has_code z e && _ && _).
Qed.

(** C7.  A validated code that no record of the dataset carries:
    [matching] returns the empty list, [isvalid] returns [False],
    [districtmatch] raises its not-found error, [coordinates] returns the
    empty mapping and [nearby] returns the empty list. *)
Theorem absent_code (v : pyval) (z : pystr) (zips : option (list pydict)) :
  gate v = Ok z ->
  (forall e, In e (or_default zips) -> has_code z e = false) ->
  matching v zips = Ok []
  /\ isvalid v zips = Ok false
  /\ districtmatch v zips
     = raise_msg ValueError "Invalid Pincode, not found in database"
  /\ coordinates v zips = Ok []
  /\ forall max_diff, nearby v max_diff zips = Ok [].
Proof.
  intros Hg Habs.
  assert (Hf : filter (has_code z) (or_default zips) = [])
    by now apply filter_nil_all.
  pose proof (gate_of_validated _ _ Hg) as Hz.
  repeat split.
  - rewrite (matching_filter _ _ _ Hg), Hf. reflexivity.
  - unfold isvalid. rewrite (gate_ok_run _ _ _ Hg).
    rewrite (matching_filter _ _ _ Hz); simpl. now rewrite Hf.
  - unfold districtmatch. rewrite (gate_ok_run _ _ _ Hg).
    unfold districtmatch_body. rewrite district_loop.
    unfold district_values. rewrite Hf. reflexivity.
  - unfold coordinates. rewrite (gate_ok_run _ _ _ Hg).
    unfold coordinates_body. rewrite (matching_filter _ _ _ Hz); simpl.
    now rewrite Hf.
  - intros max_diff. unfold nearby. rewrite (gate_ok_run _ _ _ Hg).
    unfold nearby_body. rewrite center_loop.
    assert (Hc : center_candidates z (or_default zips) = []).
    { apply filter_nil_all. intros e He. now rewrite (Habs e He). }
    rewrite Hc. reflexivity.
Qed.

(** *** Sets of strings *)

Lemma set_iter_perm (s : strset) : Permutation (set_iter s) s.
Proof. unfold set_iter. exact (proj2_sig (set_order s)). Qed.

Lemma strset_contains_in (x : pystr) (s : strset) :
  strset_contains x s = true <-> In x s.
Proof.
  unfold strset_contains. rewrite existsb_exists. split.
  - intros [y [Hy E]]. apply pystr_eqb_eq in E. now subst.
  - intros H. exists x. split; [exact H | apply pystr_eqb_refl].
Qed.

Lemma strset_add_in (x y : pystr) (s : strset) :
  In y (strset_add x s) <-> y = x \/ In y s.
Proof.
  unfold strset_add. fold (strset_contains x s).
  destruct (strset_contains x s) eqn:E.
  - apply strset_contains_in in E. split; [auto | intros [->|H]; auto].
  - rewrite in_app_iff. simpl. split; [intros [H|[H|[]]] | intros [H|H]]; auto.
Qed.

Lemma strset_add_nodup (x : pystr) (s : strset) :
  NoDup s -> NoDup (strset_add x s).
Proof.
  intros Hs. unfold strset_add. fold (strset_contains x s).
  destruct (strset_contains x s) eqn:E; [exact Hs|].
  assert (Hx : ~ In x s).
  { intros H. apply strset_contains_in in H. congruence. }
  apply (Permutation_NoDup (Permutation_cons_append s x)).
  now constructor.
Qed.

Lemma strset_remove_in (x y : pystr) (s : strset) :
  In y (strset_remove x s) <-> In y s /\ y <> x.
Proof.
  unfold strset_remove. rewrite filter_In, negb_true_iff, pystr_eqb_neq.
  split; intros [H1 H2]; split; auto.
Qed.

Lemma strset_of_in (xs : list pystr) (s : strset) (y : pystr) :
  In y (strset_of xs s) <-> In y s \/ In y xs.
Proof.
  unfold strset_of. revert s; induction xs as [|x xs IH]; intros s; simpl.
  - tauto.
  - rewrite IH, strset_add_in. intuition (subst; auto).
Qed.

Lemma strset_of_nodup (xs : list pystr) (s : strset) :
  NoDup s -> NoDup (strset_of xs s).
Proof.
  unfold strset_of. revert s; induction xs as [|x xs IH]; intros s Hs;
    simpl; [exact Hs|].
  apply IH. now apply strset_add_nodup.
Qed.

Lemma texts_in (vals : list pyval) (x : pystr) :
  In x (texts vals) <-> In (PyStr x) vals.
Proof.
  unfold texts. rewrite in_flat_map. split.
  - intros [v [Hv Hx]]. destruct v; simpl in Hx; try contradiction.
    destruct Hx as [->|[]]. exact Hv.
  - intros H. exists (PyStr x). split; [exact H | now left].
Qed.

Lemma all_str_map (names : list pystr) :
  all_str (map PyStr names) = Some names.
Proof.
  induction names as [|x names IH]; simpl; [reflexivity|].
  now rewrite IH.
Qed.

Lemma py_eq_text (a b : pystr) : py_eq (PyStr a) (PyStr b) = pystr_eqb a b.
Proof. reflexivity. Qed.

Lemma existsb_py_eq_text (x : pystr) (names : list pystr) :
  existsb (py_eq (PyStr x)) (map PyStr names)
  = existsb (pystr_eqb x) names.
Proof.
  induction names as [|y names IH]; simpl; [reflexivity|].
  now rewrite IH, py_eq_text.
Qed.

Lemma collect_texts (vals : list pyval) (names : list pystr) :
  Forall (fun d => isinstance_str d = true) vals ->
  for_each (fun districts d => set_add d districts) vals (map PyStr names)
  = Ok (map PyStr (strset_of (texts vals) names)).
Proof.
  intros Hv. revert names; induction Hv as [|v vals Hs _ IH]; intros names;
    simpl; [reflexivity|].
  destruct v; try discriminate. simpl.
  unfold set_add; simpl.
  rewrite existsb_py_eq_text.
  unfold strset_of in *. simpl. unfold strset_add at 2.
  destruct (existsb (pystr_eqb s) names); simpl.
  - apply IH.
  - rewrite <- IH. now rewrite map_app.
Qed.

(** *** Districts *)

Lemma districtmatch_body_texts (z : pystr) (zips : option (list pydict)) :
  Forall (fun d => isinstance_str d = true)
    (district_values z (or_default zips)) ->
  districtmatch_body z zips
  = match strset_of (texts (district_values z (or_default zips))) [] with
    | [] => raise_msg ValueError "Invalid Pincode, not found in database"
    | names => Ok (join (lit ", ") (set_iter names))
    end.
Proof.
  intros Hv. unfold districtmatch_body. rewrite district_loop.
  pose proof (collect_texts _ [] Hv) as Hc.
  change (map PyStr []) with (@nil pyval) in Hc. rewrite Hc. simpl.
  destruct (strset_of _ []) as [|x names] eqn:E; [reflexivity|].
  change (PyStr x :: map PyStr names) with (map PyStr (x :: names)).
  rewrite length_map, all_str_map. reflexivity.
Qed.

(** C5, as the code has it.  When the truthy district values of the
    records of a validated code are all texts, [districtmatch] raises its
    not-found error exactly when there is none, and otherwise returns the
    distinct ones, each once, in some order, joined by a comma and a
    blank. *)
Theorem districtmatch_spec (v : pyval) (z : pystr)
  (zips : option (list pydict)) :
  gate v = Ok z ->
  Forall (fun d => isinstance_str d = true)
    (district_values z (or_default zips)) ->
  (districtmatch v zips
   = raise_msg ValueError "Invalid Pincode, not found in database"
   <-> district_values z (or_default zips) = [])
  /\ (district_values z (or_default zips) <> [] ->
      exists names,
        NoDup names
        /\ (forall x, In x names
                      <-> In (PyStr x) (district_values z (or_default zips)))
        /\ districtmatch v zips = Ok (join (lit ", ") names)).
Proof.
  intros Hg Hv. unfold districtmatch. rewrite (gate_ok_run _ _ _ Hg).
  rewrite (districtmatch_body_texts _ _ Hv).
  set (vals := district_values z (or_default zips)) in *.
  assert (Hin : forall x, In x (strset_of (texts vals) [])
                          <-> In (PyStr x) vals).
  { intros x. rewrite strset_of_in, texts_in. simpl. tauto. }
  assert (Hnd : NoDup (strset_of (texts vals) []))
    by (apply strset_of_nodup; constructor).
  destruct (strset_of (texts vals) []) as [|n names] eqn:E.
  - assert (Hnil : vals = []).
    { destruct vals as [|d vals']; [reflexivity|]. exfalso.
      inversion Hv as [|? ? Hd _]; subst.
      destruct d; try discriminate.
      apply (Hin s). now left. }
    split; [tauto | intros H; contradiction].
  - split.
    + split; [discriminate|].
      intros Hnil. exfalso.
      assert (In (PyStr n) vals) by (apply Hin; now left).
      rewrite Hnil in H. contradiction.
    + intros _. exists (set_iter (n :: names)).
      pose proof (set_iter_perm (n :: names)) as Hp.
      split; [|split; [|reflexivity]].
      * apply (Permutation_NoDup (Permutation_sym Hp) Hnd).
      * intros x. rewrite <- Hin. split; intros H.
        -- apply (Permutation_in _ Hp H).
        -- apply (Permutation_in _ (Permutation_sym Hp) H).
Qed.

(** *** Keys *)

Lemma hkey_eqb_eq (a b : hkey) : hkey_eqb a b = true <-> a = b.
Proof.
  destruct a, b; simpl; try (split; [discriminate | congruence]);
    try tauto.
  - rewrite pystr_eqb_eq. split; congruence.
  - rewrite andb_true_iff, !Z.eqb_eq. split; [intros [-> ->] | intros H];
      [reflexivity | inversion H; auto].
  - rewrite Bool.eqb_true_iff. split; congruence.
Qed.

Lemma py_eq_iff (a b : pyval) :
  py_eq a b = true <-> exists k, key_of a = Some k /\ key_of b = Some k.
Proof.
  unfold py_eq. destruct (key_of a) as [x|], (key_of b) as [y|].
  - rewrite hkey_eqb_eq. split.
    + intros ->. eauto.
    + intros [k [E1 E2]]. congruence.
  - split; [discriminate | intros [k [_ E]]; discriminate].
  - split; [discriminate | intros [k [E _]]; discriminate].
  - split; [discriminate | intros [k [E _]]; discriminate].
Qed.

Lemma py_eq_sym (a b : pyval) : py_eq a b = py_eq b a.
Proof.
  destruct (py_eq a b) eqn:E1, (py_eq b a) eqn:E2; try reflexivity.
  - apply py_eq_iff in E1. destruct E1 as [k [Ha Hb]].
    assert (py_eq b a = true) by (apply py_eq_iff; eauto). congruence.
  - apply py_eq_iff in E2. destruct E2 as [k [Ha Hb]].
    assert (py_eq a b = true) by (apply py_eq_iff; eauto). congruence.
Qed.

Lemma py_eq_trans (a b c : pyval) :
  py_eq a b = true -> py_eq b c = true -> py_eq a c = true.
Proof.
  rewrite !py_eq_iff. intros [k [Ha Hb]] [k' [Hb' Hc]].
  exists k. split; congruence.
Qed.

Lemma py_eq_false_l (a b c : pyval) :
  py_eq a b = true -> py_eq a c = false -> py_eq b c = false.
Proof.
  intros Hab Hac. destruct (py_eq b c) eqn:E; [|reflexivity].
  rewrite (py_eq_trans _ _ _ Hab E) in Hac. discriminate.
Qed.

(** *** The mapping of [coordinates] *)

Lemma lookup_update (n k : pyval) (c : coord) (m : coords_dict) :
  coords_lookup k (dict_update n c m)
  = if py_eq n k then Some c else coords_lookup k m.
Proof.
  induction m as [|[k' c'] m IH]; simpl; [reflexivity|].
  destruct (py_eq k' n) eqn:E1; simpl.
  - destruct (py_eq k' k) eqn:E2.
    + rewrite py_eq_sym in E1. now rewrite (py_eq_trans _ _ _ E1 E2).
    + now rewrite (py_eq_false_l _ _ _ E1 E2).
  - rewrite IH. destruct (py_eq k' k) eqn:E2; [|reflexivity].
    destruct (py_eq n k) eqn:E3; [|reflexivity].
    rewrite py_eq_sym in E3. rewrite (py_eq_trans _ _ _ E2 E3) in E1.
    discriminate.
Qed.

Lemma keys_update (n : pyval) (c : coord) (m : coords_dict) :
  map fst (dict_update n c m)
  = if existsb (fun k => py_eq k n) (map fst m) then map fst m
    else map fst m ++ [n].
Proof.
  induction m as [|[k' c'] m IH]; simpl; [reflexivity|].
  destruct (py_eq k' n); simpl; [reflexivity|].
  rewrite IH. now destruct (existsb _ (map fst m)).
Qed.

Lemma distinct_keys_snoc (ks : list pyval) (n : pyval) :
  distinct_keys ks ->
  existsb (fun k => py_eq k n) ks = false ->
  distinct_keys (ks ++ [n]).
Proof.
  induction ks as [|k ks IH]; simpl.
  - intros _ _. split; [intros k' []|exact I].
  - intros [Hk Hd] He. apply orb_false_iff in He. destruct He as [E1 E2].
    split; [|now apply IH].
    intros k' Hin. apply in_app_iff in Hin. destruct Hin as [H|[<-|[]]];
      [now apply Hk | exact E1].
Qed.

Lemma coords_loop (matches : list pydict) (m : coords_dict) :
  Forall (fun e => hashable (name_of e) = true) matches ->
  for_each
    (fun coords_map entry =>
       let name := dict_get (lit "Name") (PyStr (lit "Unknown")) entry in
       let lat := dict_get (lit "Latitude") (PyStr (lit "")) entry in
       let lon := dict_get (lit "Longitude") (PyStr (lit "")) entry in
       dict_setitem name
         {| latitude := py_str lat; longitude := py_str lon |} coords_map)
    matches m
  = Ok (coords_fold matches m).
Proof.
  intros H. revert m; induction H as [|e matches He _ IH]; intros m; simpl;
    [reflexivity|].
  unfold dict_setitem. fold (name_of e). rewrite He. simpl. apply IH.
Qed.

Lemma find_last_cons {X} (p : X -> bool) (x : X) (l : list X) :
  find_last p (x :: l)
  = match find_last p l with
    | Some y => Some y
    | None => if p x then Some x else None
    end.
Proof.
  unfold find_last. simpl. generalize (rev l) as r.
  induction r as [|y r IH]; simpl; [reflexivity|].
  destruct (p y); [reflexivity | exact IH].
Qed.

Lemma coords_fold_lookup (matches : list pydict) (m : coords_dict)
  (k : pyval) :
  coords_lookup k (coords_fold matches m)
  = match find_last (fun e => py_eq (name_of e) k) matches with
    | Some e => Some (coord_of e)
    | None => coords_lookup k m
    end.
Proof.
  unfold coords_fold.
  revert m; induction matches as [|e matches IH]; intros m; simpl;
    [reflexivity|].
  rewrite IH, find_last_cons, lookup_update.
  destruct (find_last _ matches); [reflexivity|].
  now destruct (py_eq (name_of e) k).
Qed.

Lemma coords_fold_keys (matches : list pydict) (m : coords_dict) :
  distinct_keys (map fst m) ->
  distinct_keys (map fst (coords_fold matches m))
  /\ forall k, In k (map fst (coords_fold matches m)) ->
       In k (map fst m) \/ exists e, In e matches /\ name_of e = k.
Proof.
  unfold coords_fold.
  revert m; induction matches as [|e matches IH]; intros m Hd; simpl.
  - split; [exact Hd | auto].
  - assert (Hd' : distinct_keys
                    (map fst (dict_update (name_of e) (coord_of e) m))).
    { rewrite keys_update.
      destruct (existsb _ (map fst m)) eqn:E; [exact Hd|].
      now apply distinct_keys_snoc. }
    destruct (IH _ Hd') as [H1 H2]. split; [exact H1|].
    intros k Hk. destruct (H2 k Hk) as [Hin|[e' [He' Hn]]].
    + rewrite keys_update in Hin.
      destruct (existsb _ (map fst m)); [now left|].
      apply in_app_iff in Hin. destruct Hin as [Hin|[<-|[]]];
        [now left | right; exists e; auto].
    + right. exists e'. auto.
Qed.

Lemma find_last_some {X} (p : X -> bool) (l : list X) (x : X) :
  In x l -> p x = true -> exists y, find_last p l = Some y.
Proof.
  intros Hin Hp. unfold find_last.
  destruct (find p (rev l)) as [y|] eqn:E; [eauto|].
  apply in_rev in Hin. rewrite (find_none _ _ E _ Hin) in Hp. discriminate.
Qed.

(** C6, as the code has it.  When the names of the records of a validated
    code are hashable, [coordinates] returns a mapping in which looking a
    key up gives the latitude and longitude, as strings, of the last
    record of the code whose name equals the key; each key is the name of
    such a record (the text "Unknown" when the record has no name), no
    two keys are equal, and a missing latitude or longitude is the empty
    string. *)
Theorem coordinates_spec (v : pyval) (z : pystr)
  (zips : option (list pydict)) :
  gate v = Ok z ->
  Forall (fun e => hashable (name_of e) = true)
    (filter (has_code z) (or_default zips)) ->
  exists m,
    coordinates v zips = Ok m
    /\ (forall k,
          coords_lookup k m
          = option_map coord_of
              (find_last (fun e => py_eq (name_of e) k)
                 (filter (has_code z) (or_default zips))))
    /\ (forall k, In k (map fst m) ->
          exists e, In e (filter (has_code z) (or_default zips))
                    /\ name_of e = k)
    /\ distinct_keys (map fst m)
    /\ (forall e, In e (filter (has_code z) (or_default zips)) ->
          py_eq (name_of e) (name_of e) = true ->
          exists c, coords_lookup (name_of e) m = Some c)
    /\ (forall e, dict_find (lit "Name") e = None ->
          name_of e = PyStr (lit "Unknown"))
    /\ (forall e,
          (dict_find (lit "Latitude") e = None ->
           latitude (coord_of e) = [])
          /\ (dict_find (lit "Longitude") e = None ->
              longitude (coord_of e) = [])
          /\ (forall x, dict_find (lit "Latitude") e = Some x ->
                latitude (coord_of e) = py_str x)
          /\ (forall x, dict_find (lit "Longitude") e = Some x ->
                longitude (coord_of e) = py_str x)).
Proof.
  intros Hg Hh. pose proof (gate_of_validated _ _ Hg) as Hz.
  set (matches := filter (has_code z) (or_default zips)) in *.
  exists (coords_fold matches []).
  assert (Hl : forall k,
             coords_lookup k (coords_fold matches [])
             = option_map coord_of
                 (find_last (fun e => py_eq (name_of e) k) matches)).
  { intros k. rewrite coords_fold_lookup.
    now destruct (find_last _ matches). }
  destruct (coords_fold_keys matches [] I) as [Hd Hk].
  split; [|split; [exact Hl|split; [|split; [exact Hd|split; [|split]]]]].
  - unfold coordinates. rewrite (gate_ok_run _ _ _ Hg).
    unfold coordinates_body. rewrite (matching_filter _ _ _ Hz); simpl.
    fold matches. now apply coords_loop.
  - intros k Hin. destruct (Hk k Hin) as [[]|H]. exact H.
  - intros e He Hr. rewrite Hl.
    destruct (find_last_some (fun e' => py_eq (name_of e') (name_of e))
                matches e He Hr) as [y Hy].
    rewrite Hy. simpl. eauto.
  - intros e He. unfold name_of, dict_get. now rewrite He.
  - intros e. unfold coord_of, dict_get; simpl.
    repeat split; intros; rewrite H; reflexivity.
Qed.

(** *** The loader *)

Lemma load_line_cases (zips : list pydict) (line : pystr) :
  load_line zips line
  = if aborts line then None else Some (zips ++ contribution line).
Proof.
  unfold load_line, aborts, contribution, admitted.
  destruct (strip line) as [|c t]; simpl; [now rewrite app_nil_r|].
  destruct (json_loads (c :: t)) as [[| b | n | x | s | items | obj]| |];
    simpl; try reflexivity; try now rewrite app_nil_r.
  destruct (dict_contains (lit "Pincode") obj); simpl;
    [reflexivity | now rewrite app_nil_r].
Qed.

Lemma load_from (lines : list pystr) (acc : list pydict) :
  load_lines lines acc = acc ++ flat_map contribution (before_abort lines).
Proof.
  revert acc; induction lines as [|l lines IH]; intros acc; simpl.
  - now rewrite app_nil_r.
  - rewrite load_line_cases. destruct (aborts l); simpl.
    + now rewrite app_nil_r.
    + rewrite IH. now rewrite <- app_assoc.
Qed.

Lemma before_abort_all (lines : list pystr) :
  Forall (fun l => aborts l = false) lines -> before_abort lines = lines.
Proof.
  induction 1 as [|l lines Hl _ IH]; simpl; [reflexivity|].
  now rewrite Hl, IH.
Qed.

Lemma before_abort_app (lines1 lines2 : list pystr) :
  before_abort (lines1 ++ lines2)
  = if existsb aborts lines1 then before_abort lines1
    else lines1 ++ before_abort lines2.
Proof.
  induction lines1 as [|l ls IH]; simpl; [reflexivity|].
  destruct (aborts l); simpl; [reflexivity|].
  rewrite IH. now destruct (existsb aborts ls).
Qed.

Lemma before_abort_incl (lines : list pystr) (l : pystr) :
  In l (before_abort lines) -> In l lines.
Proof.
  induction lines as [|x lines IH]; simpl; [intros []|].
  destruct (aborts x); simpl; [intros []|].
  intros [H|H]; [now left | right; now apply IH].
Qed.

Lemma admitted_iff (line : pystr) (obj : pydict) :
  admitted line = Some obj
  <-> strip line <> []
      /\ json_loads (strip line) = Decoded (PyDict obj)
      /\ dict_contains (lit "Pincode") obj = true.
Proof.
  unfold admitted. destruct (strip line) as [|c t] eqn:E.
  - split; [discriminate | intros [H _]; congruence].
  - destruct (json_loads (c :: t)) as [[| b | n | x | s | items | o]| |];
      try (split; [discriminate | intros [_ [H _]]; discriminate]).
    destruct (dict_contains (lit "Pincode") o) eqn:D.
    + split.
      * intros H; inversion H; subst. repeat split; auto. discriminate.
      * intros [_ [H _]]. inversion H; subst. reflexivity.
    + split; [discriminate|].
      intros [_ [H D']]. inversion H; subst. congruence.
Qed.

Lemma aborts_iff (line : pystr) :
  aborts line = true
  <-> strip line <> [] /\ json_loads (strip line) = OtherError.
Proof.
  unfold aborts. destruct (strip line) as [|c t].
  - split; [discriminate | intros [H _]; congruence].
  - destruct (json_loads (c :: t));
      (split; [intros H | intros [_ H]]); try discriminate;
      [split; [discriminate | reflexivity] | reflexivity].
Qed.

(** Where [json.loads] raises nothing but [JSONDecodeError] on the lines
    of the resource, the loader keeps, in the order of the lines, the
    object of every line that, once stripped, is not empty, decodes as
    JSON to a mapping and carries the code field, and nothing else; a
    resource made of one such line, one line on which the decoder raises
    [JSONDecodeError] and one blank line gives a dataset of length 1. *)
Theorem load_keeps_decodable_lines :
  (forall lines,
      Forall (fun l => aborts l = false) lines ->
      load lines = flat_map contribution lines)
  /\ (forall line obj,
        In obj (contribution line)
        <-> strip line <> []
            /\ json_loads (strip line) = Decoded (PyDict obj)
            /\ dict_contains (lit "Pincode") obj = true)
  /\ (forall line, (length (contribution line) <= 1)%nat)
  /\ (forall lines valid bad blank obj,
        Permutation lines [valid; bad; blank] ->
        strip valid <> [] ->
        json_loads (strip valid) = Decoded (PyDict obj) ->
        dict_contains (lit "Pincode") obj = true ->
        strip bad <> [] ->
        json_loads (strip bad) = DecodeError ->
        strip blank = [] ->
        length (load lines) = 1%nat).
Proof.
  split; [|split; [|split]].
  - intros lines H. unfold load. rewrite load_from. simpl.
    now rewrite (before_abort_all _ H).
  - intros line obj. rewrite <- admitted_iff. unfold contribution.
    destruct (admitted line) as [o|]; simpl.
    + split; [intros [->|[]]; reflexivity | intros H; left; congruence].
    + split; [intros [] | discriminate].
  - intros line. unfold contribution. destruct (admitted line); simpl; lia.
  - intros lines valid bad blank obj Hp Hv1 Hv2 Hv3 Hb1 Hb2 Hk.
    assert (Hall : Forall (fun l => aborts l = false) lines).
    { apply (Permutation_Forall (Permutation_sym Hp)).
      repeat constructor;
        match goal with
        | |- aborts ?l = false =>
            destruct (aborts l) eqn:E; [|reflexivity];
            apply aborts_iff in E; destruct E as [E1 E2]; congruence
        end. }
    unfold load. rewrite load_from, (before_abort_all _ Hall). simpl.
    rewrite (Permutation_length (Permutation_flat_map contribution Hp)).
    simpl. unfold contribution.
    assert (Ev : admitted valid = Some obj) by (apply admitted_iff; auto).
    assert (Eb : admitted bad = None).
    { unfold admitted. destruct (strip bad); [reflexivity|].
      now rewrite Hb2. }
    assert (Ek : admitted blank = None)
      by (unfold admitted; now rewrite Hk).
    rewrite Ev, Eb, Ek. reflexivity.
Qed.

(** A line that ends the loading: what was kept stays, nothing behind the
    line is read. *)
Lemma load_lines_abort (line : pystr) (rest : list pystr)
  (zips : list pydict) :
  strip line <> [] ->
  json_loads (strip line) = OtherError ->
  load_lines (line :: rest) zips = zips
  /\ contribution line = [].
Proof.
  intros H1 H2. split.
  - simpl. rewrite load_line_cases.
    assert (E : aborts line = true) by (apply aborts_iff; auto).
    now rewrite E.
  - unfold contribution. destruct (admitted line) as [obj|] eqn:E;
      [|reflexivity].
    apply admitted_iff in E. destruct E as [_ [E _]]. congruence.
Qed.

(** The same at the first line of a resource: the dataset is empty, and
    the line is none of those that decode to a mapping with the code
    field. *)
Lemma load_abort_first (line : pystr) (rest : list pystr) :
  strip line <> [] ->
  json_loads (strip line) = OtherError ->
  load (line :: rest) = []
  /\ flat_map contribution (line :: rest) = flat_map contribution rest.
Proof.
  intros H1 H2.
  destruct (load_lines_abort line rest [] H1 H2) as [Hl Hc].
  split; [exact Hl|].
  simpl. rewrite Hc. reflexivity.
Qed.

Lemma rev_block (c : N) (n : nat) : rev (repeat c n) = repeat c n.
Proof.
  induction n as [|n IH]; [reflexivity|].
  simpl. rewrite IH. symmetry. apply repeat_cons.
Qed.

(** [strip] on a line made of one character that is not a blank, then a
    line feed. *)
Lemma strip_block (c : N) (n : nat) :
  py_isspace c = false -> n <> 0%nat ->
  strip (repeat c n ++ [0x0A]) = repeat c n.
Proof.
  intros Hc Hn. destruct n as [|n]; [congruence|].
  unfold strip.
  assert (Hl : forall t, lstrip py_isspace (repeat c (S n) ++ t)
                         = repeat c (S n) ++ t)
    by (intros t; simpl; now rewrite Hc).
  assert (Hl' : lstrip py_isspace (repeat c (S n)) = repeat c (S n))
    by (simpl; now rewrite Hc).
  rewrite Hl, rev_app_distr, rev_block.
  change (rev [0x0A] ++ repeat c (S n)) with (0x0A :: repeat c (S n)).
  change (lstrip py_isspace (0x0A :: repeat c (S n)))
    with (lstrip py_isspace (repeat c (S n))).
  rewrite Hl'. apply rev_block.
Qed.

Lemma iter_block (c : N) (p : positive) :
  Pos.iter (cons c) [] p = repeat c (Pos.to_nat p).
Proof.
  rewrite Pos2Nat.inj_iter. generalize (Pos.to_nat p) as n.
  induction n as [|n IH]; simpl; [reflexivity | now rewrite IH].
Qed.

(** *** Order on texts and [sorted] *)

Lemma pystr_ltb_irrefl (a : pystr) : pystr_ltb a a = false.
Proof.
  induction a as [|x a IH]; simpl; [reflexivity|].
  rewrite N.ltb_irrefl, N.eqb_refl, IH. reflexivity.
Qed.

Lemma pystr_ltb_trans (a b c : pystr) :
  pystr_ltb a b = true -> pystr_ltb b c = true -> pystr_ltb a c = true.
Proof.
  revert b c; induction a as [|x a IH]; intros [|y b] [|w c]; simpl;
    try discriminate; try reflexivity.
  rewrite !orb_true_iff, !andb_true_iff, !N.ltb_lt, !N.eqb_eq.
  intros [H1|[H1 H1']] [H2|[H2 H2']].
  - left; lia.
  - left; lia.
  - left; lia.
  - right. split; [lia | now apply (IH b c)].
Qed.

Lemma pystr_ltb_total (a b : pystr) :
  pystr_ltb a b = false -> pystr_ltb b a = false -> a = b.
Proof.
  revert b; induction a as [|x a IH]; intros [|y b]; simpl;
    try discriminate; try reflexivity.
  rewrite !orb_false_iff, !andb_false_iff, !N.ltb_ge, !N.eqb_neq.
  intros [H1 H1'] [H2 H2'].
  assert (x = y) by lia. subst y. f_equal.
  apply IH; [destruct H1' | destruct H2']; congruence.
Qed.

Lemma str_le_trans (a b c : pystr) : str_le a b -> str_le b c -> str_le a c.
Proof.
  unfold str_le. intros Hab Hbc.
  destruct (pystr_ltb c a) eqn:Hca; [|reflexivity].
  destruct (pystr_ltb a b) eqn:E.
  - rewrite (pystr_ltb_trans _ _ _ Hca E) in Hbc. discriminate.
  - assert (a = b) by now apply pystr_ltb_total. subst. congruence.
Qed.

Lemma insert_sorted_perm (x : pystr) (l : list pystr) :
  Permutation (insert_sorted x l) (x :: l).
Proof.
  induction l as [|y l IH]; simpl; [reflexivity|].
  destruct (pystr_ltb y x); [|reflexivity].
  rewrite IH. apply perm_swap.
Qed.

Lemma py_sorted_perm (l : list pystr) : Permutation (py_sorted l) l.
Proof.
  induction l as [|x l IH]; simpl; [reflexivity|].
  rewrite insert_sorted_perm. now constructor.
Qed.

Lemma insert_sorted_sorted (x : pystr) (l : list pystr) :
  StronglySorted str_le l -> StronglySorted str_le (insert_sorted x l).
Proof.
  induction 1 as [|y l Hs IH Hy]; simpl.
  - constructor; constructor.
  - destruct (pystr_ltb y x) eqn:E.
    + constructor; [exact IH|].
      apply (Permutation_Forall (Permutation_sym (insert_sorted_perm x l))).
      constructor; [|exact Hy].
      unfold str_le. destruct (pystr_ltb x y) eqn:E'; [|reflexivity].
      pose proof (pystr_ltb_trans _ _ _ E E') as T.
      rewrite pystr_ltb_irrefl in T. discriminate.
    + constructor; [now constructor|].
      constructor; [exact E|].
      apply (Forall_impl _ (fun w => str_le_trans x y w E) Hy).
Qed.

Lemma py_sorted_sorted (l : list pystr) : StronglySorted str_le (py_sorted l).
Proof.
  induction l as [|x l IH]; simpl; [constructor|].
  now apply insert_sorted_sorted.
Qed.

Lemma sorted_strict (l : list pystr) :
  StronglySorted str_le l -> NoDup l -> StronglySorted str_lt l.
Proof.
  induction 1 as [|x l Hs IH Hx]; intros Hn; [constructor|].
  inversion Hn as [|? ? Hnx Hnl]; subst.
  constructor; [now apply IH|].
  rewrite Forall_forall in *. intros y Hy.
  unfold str_lt. destruct (pystr_ltb x y) eqn:E; [reflexivity|].
  exfalso. apply Hnx.
  rewrite (pystr_ltb_total x y E (Hx y Hy)). exact Hy.
Qed.

(** *** Proximity *)

Lemma bind_ok {A B} (r : result A) (k : A -> result B) (b : B) :
  bind r k = Ok b -> exists a, r = Ok a /\ k a = Ok b.
Proof. destruct r as [a|e]; simpl; [eauto | discriminate]. Qed.

Lemma for_each_inv {S X} (body : S -> X -> result S) (I : S -> Prop) :
  (forall s x s', I s -> body s x = Ok s' -> I s') ->
  forall xs s s', I s -> for_each body xs s = Ok s' -> I s'.
Proof.
  intros Hb xs; induction xs as [|x xs IH]; intros s s' Hs H; simpl in H.
  - inversion H; subst. exact Hs.
  - apply bind_ok in H. destruct H as [s1 [H1 H2]].
    apply (IH s1 s'); [now apply (Hb s x) | exact H2].
Qed.

Lemma scan_step_cases (clat clon md : spec_float) (pins pins' : strset)
  (r : pydict) :
  scan_step clat clon md pins r = Ok pins' ->
  pins' = pins \/ exists code, pins' = strset_add code pins.
Proof.
  unfold scan_step.
  destruct (negb (dict_contains (lit "Pincode") r));
    [intros H; inversion H; auto|].
  intros H. apply bind_ok in H. destruct H as [[[lat lon]|] [_ H]];
    [|inversion H; auto].
  simpl in H. destruct (fle _ md); [|inversion H; auto].
  apply bind_ok in H. destruct H as [code [_ H]]. inversion H; eauto.
Qed.

Lemma nearby_body_unfold (z : pystr) (md : spec_float)
  (zips : option (list pydict)) :
  nearby_body z md zips
  = match center_candidates z (or_default zips) with
    | [] => Ok []
    | center :: _ =>
        lat0 <- dict_item (lit "Latitude") center ;;
        center_lat <- py_float lat0 ;;
        lon0 <- dict_item (lit "Longitude") center ;;
        center_lon <- py_float lon0 ;;
        nearby_pins <-
          for_each (scan_step center_lat center_lon md)
            (or_default zips) [] ;;
        Ok (py_sorted (set_iter (strset_remove z nearby_pins)))
    end.
Proof.
  unfold nearby_body. rewrite center_loop. simpl.
  destruct (center_candidates z (or_default zips)) as [|c cs];
    [reflexivity|].
  destruct (dict_item (lit "Latitude") c) as [lat0|]; [simpl|reflexivity].
  destruct (py_float lat0) as [clat|]; [simpl|reflexivity].
  destruct (dict_item (lit "Longitude") c) as [lon0|]; [simpl|reflexivity].
  destruct (py_float lon0) as [clon|]; [simpl|reflexivity].
  destruct (for_each (scan_step clat clon md) (or_default zips) [])
    as [pins|]; [simpl|reflexivity].
  destruct (strset_contains z pins) eqn:E; [reflexivity|].
  assert (Hrm : strset_remove z pins = pins); [|now rewrite Hrm].
  unfold strset_remove. apply forallb_filter_id.
  apply forallb_forall. intros y Hy. apply negb_true_iff.
  apply pystr_eqb_neq. intros ->.
  apply strset_contains_in in Hy. congruence.
Qed.

(** C3.  Whatever the dataset, the validated code and the threshold, a
    list returned by [nearby] does not contain the code, has no
    repetition and is in strictly ascending lexicographic order. *)
Theorem nearby_spec (v : pyval) (z : pystr) (max_diff : spec_float)
  (zips : option (list pydict)) (out : list pystr) :
  gate v = Ok z ->
  nearby v max_diff zips = Ok out ->
  ~ In z out /\ NoDup out /\ StronglySorted str_lt out.
Proof.
  intros Hg H. unfold nearby in H. rewrite (gate_ok_run _ _ _ Hg) in H.
  rewrite nearby_body_unfold in H.
  destruct (center_candidates z (or_default zips)) as [|c cs].
  { inversion H; subst. repeat split; [intros [] | constructor | constructor]. }
  apply bind_ok in H. destruct H as [lat0 [_ H]].
  apply bind_ok in H. destruct H as [clat [_ H]].
  apply bind_ok in H. destruct H as [lon0 [_ H]].
  apply bind_ok in H. destruct H as [clon [_ H]].
  apply bind_ok in H. destruct H as [pins [Hscan H]].
  inversion H; subst out; clear H.
  assert (Hnd : NoDup pins).
  { refine (for_each_inv _ (@NoDup pystr) _ _ _ _ _ Hscan);
      [|constructor].
    intros s r s' Hs Hstep.
    destruct (scan_step_cases _ _ _ _ _ _ Hstep) as [->|[code ->]];
      [exact Hs | now apply strset_add_nodup]. }
  set (kept := strset_remove z pins).
  assert (Hk : NoDup kept) by (apply NoDup_filter; exact Hnd).
  assert (Hp : Permutation (py_sorted (set_iter kept)) kept).
  { rewrite py_sorted_perm. apply set_iter_perm. }
  assert (Ho : NoDup (py_sorted (set_iter kept)))
    by (apply (Permutation_NoDup (Permutation_sym Hp) Hk)).
  split; [|split; [exact Ho|]].
  - intros Hin. apply (Permutation_in _ Hp) in Hin.
    apply strset_remove_in in Hin. destruct Hin as [_ Hne]. now apply Hne.
  - apply sorted_strict; [apply py_sorted_sorted | exact Ho].
Qed.

(** *** The metric *)

Lemma abs_round_aux (sx sy : bool) (m e : Z) (l : location) :
  SFabs (binary_round_aux prec emax sx m e l)
  = SFabs (binary_round_aux prec emax sy m e l).
Proof.
  unfold binary_round_aux.
  destruct (shr_fexp prec emax m e l) as [mrs e'].
  destruct (shr_fexp prec emax _ e' loc_Exact) as [mrs' e''].
  destruct (shr_m mrs'); try reflexivity.
  destruct (Z.leb e'' (emax - prec)); reflexivity.
Qed.

Lemma abs_normalize_opp (n e : Z) :
  SFabs (binary_normalize prec emax (- n) e false)
  = SFabs (binary_normalize prec emax n e false).
Proof.
  destruct n as [|p|p]; simpl; [reflexivity| |];
    unfold binary_round;
    destruct (shl_align p e _) as [mz ez]; apply abs_round_aux.
Qed.

Lemma fabs_fsub_sym (x y : spec_float) :
  fabs (fsub x y) = fabs (fsub y x).
Proof.
  unfold fabs, fsub.
  destruct x as [sx|sx| |sx mx ex], y as [sy|sy| |sy my ey];
    try reflexivity;
    try (destruct sx, sy; reflexivity);
    try (destruct sx; reflexivity);
    try (destruct sy; reflexivity).
  unfold SFsub. rewrite (Z.min_comm ey ex).
  set (a := cond_Zopp sx _). set (b := cond_Zopp sy _).
  replace (b - a)%Z with (- (a - b))%Z by lia.
  symmetry. apply abs_normalize_opp.
Qed.

Lemma distance_sym (lat lon lat' lon' : spec_float) :
  distance lat lon lat' lon' = distance lat' lon' lat lon.
Proof.
  unfold distance. now rewrite (fabs_fsub_sym lat), (fabs_fsub_sym lon).
Qed.

(** *** What the scan collects *)

Lemma position_inv (r : pydict) (la lo : spec_float) :
  record_position r = Ok (Some (la, lo)) ->
  py_float (dict_get (lit "Latitude") (PyStr (lit "")) r) = Ok la
  /\ py_float (dict_get (lit "Longitude") (PyStr (lit "")) r) = Ok lo.
Proof.
  unfold record_position.
  destruct (py_float (dict_get (lit "Latitude") _ r)) as [x|e]; simpl.
  - destruct (py_float (dict_get (lit "Longitude") _ r)) as [y|e]; simpl.
    + intros H; inversion H; auto.
    + destruct (exc_type_eqb (exc_class e) ValueError); discriminate.
  - destruct (exc_type_eqb (exc_class e) ValueError); discriminate.
Qed.

Lemma truthy_get (k : pystr) (r : pydict) :
  truthy (dict_get k PyNone r) = true ->
  exists x, dict_find k r = Some x
            /\ dict_item k r = Ok x
            /\ forall d, dict_get k d r = x.
Proof.
  unfold dict_get, dict_item. destruct (dict_find k r) as [x|];
    [intros _; exists x; auto | discriminate].
Qed.

Lemma anchor_position {A} (r : pydict) (la lo : spec_float)
  (k : spec_float -> spec_float -> result A) :
  has_position r = true ->
  record_position r = Ok (Some (la, lo)) ->
  (lat0 <- dict_item (lit "Latitude") r ;;
   center_lat <- py_float lat0 ;;
   lon0 <- dict_item (lit "Longitude") r ;;
   center_lon <- py_float lon0 ;;
   k center_lat center_lon)
  = k la lo.
Proof.
  unfold has_position. rewrite andb_true_iff. intros [H1 H2] Hp.
  destruct (truthy_get _ _ H1) as [x [_ [Ix Gx]]].
  destruct (truthy_get _ _ H2) as [y [_ [Iy Gy]]].
  destruct (position_inv _ _ _ Hp) as [Px Py].
  rewrite Gx in Px. rewrite Gy in Py.
  rewrite Ix; simpl. rewrite Px; simpl. rewrite Iy; simpl.
  now rewrite Py.
Qed.

Lemma scan_step_grows (cl co md : spec_float) (pins : strset)
  (r : pydict) :
  scannable r ->
  exists pins',
    scan_step cl co md pins r = Ok pins'
    /\ (forall x, In x pins -> In x pins')
    /\ (forall code p,
          dict_find (lit "Pincode") r = Some code ->
          record_position r = Ok (Some p) ->
          fle (distance (fst p) (snd p) cl co) md = true ->
          In (py_str code) pins').
Proof.
  intros Hs. unfold scannable, dict_contains in Hs. unfold scan_step.
  unfold dict_contains, dict_item.
  destruct (dict_find (lit "Pincode") r) as [code|]; simpl.
  - destruct (Hs eq_refl) as [p Hp]. rewrite Hp; simpl.
    destruct p as [[lat lon]|].
    + destruct (fle (distance lat lon cl co) md) eqn:E; simpl.
      * eexists. split; [reflexivity|]. split.
        -- intros x Hx. apply strset_add_in. now right.
        -- intros code' p' Hc Hp' _. inversion Hc; subst.
           apply strset_add_in. now left.
      * eexists. split; [reflexivity|]. split; [auto|].
        intros code' p' _ Hp' Hle. inversion Hp'; subst p'. simpl in Hle.
        congruence.
    + eexists. split; [reflexivity|]. split; [auto|].
      intros code' p' _ Hp' _. discriminate.
  - eexists. split; [reflexivity|]. split; [auto|].
    intros code' p' Hc. discriminate.
Qed.

Lemma scan_grows (cl co md : spec_float) (zs : list pydict) :
  Forall scannable zs ->
  forall pins, exists pins',
    for_each (scan_step cl co md) zs pins = Ok pins'
    /\ (forall x, In x pins -> In x pins')
    /\ (forall r code p,
          In r zs ->
          dict_find (lit "Pincode") r = Some code ->
          record_position r = Ok (Some p) ->
          fle (distance (fst p) (snd p) cl co) md = true ->
          In (py_str code) pins').
Proof.
  induction 1 as [|r zs Hr _ IH]; intros pins; simpl.
  - exists pins. split; [reflexivity|]. split; [auto|].
    intros r code p [].
  - destruct (scan_step_grows cl co md pins r Hr) as [p1 [E1 [G1 A1]]].
    rewrite E1; simpl.
    destruct (IH p1) as [p2 [E2 [G2 A2]]].
    exists p2. split; [exact E2|]. split; [auto|].
    intros r' code p [<-|Hin] Hc Hp Hle.
    + apply G2. now apply (A1 code p).
    + now apply (A2 r' code p).
Qed.

Lemma has_code_find (z : pystr) (r : pydict) :
  has_code z r = true ->
  exists code, dict_find (lit "Pincode") r = Some code /\ py_str code = z.
Proof.
  unfold has_code. destruct (dict_find (lit "Pincode") r) as [code|];
    [|discriminate].
  intros H. exists code. split; [reflexivity | now apply pystr_eqb_eq].
Qed.

(** From a centre that parses, [nearby] reaches every code one of whose
    records lies within the threshold, as long as the scan meets no value
    on which [float] fails otherwise than with a [ValueError]. *)
Lemma nearby_reaches (va : pyval) (a b : pystr) (max_diff : spec_float)
  (zips : option (list pydict)) (ra rb : pydict) (rest : list pydict)
  (pa pb : spec_float * spec_float) :
  gate va = Ok a ->
  a <> b ->
  center_candidates a (or_default zips) = ra :: rest ->
  record_position ra = Ok (Some pa) ->
  In rb (or_default zips) ->
  has_code b rb = true ->
  record_position rb = Ok (Some pb) ->
  Forall scannable (or_default zips) ->
  fle (distance (fst pb) (snd pb) (fst pa) (snd pa)) max_diff = true ->
  exists out, nearby va max_diff zips = Ok out /\ In b out.
Proof.
  intros Hg Hne Hc Hpa Hin Hb Hpb Hscan Hle.
  unfold nearby. rewrite (gate_ok_run _ _ _ Hg), nearby_body_unfold, Hc.
  assert (Hra : has_position ra = true).
  { assert (H : In ra (center_candidates a (or_default zips)))
      by (rewrite Hc; now left).
    apply filter_In in H. destruct H as [_ H].
    now apply andb_true_iff in H. }
  destruct pa as [la lo].
  rewrite (anchor_position ra la lo _ Hra Hpa).
  destruct (scan_grows la lo max_diff _ Hscan []) as [pins [E [_ Hadd]]].
  rewrite E; simpl. eexists. split; [reflexivity|].
  destruct (has_code_find _ _ Hb) as [code [Hf Hs]].
  assert (Hp : In b pins).
  { rewrite <- Hs. apply (Hadd rb code pb Hin Hf Hpb Hle). }
  apply (Permutation_in _ (Permutation_sym (py_sorted_perm _))).
  apply (Permutation_in _ (Permutation_sym (set_iter_perm _))).
  apply strset_remove_in. split; [exact Hp | congruence].
Qed.

(** Where the record each of two distinct validated codes takes its
    centre from parses, and the scan meets no value on which [float]
    fails otherwise than with a [ValueError], [nearby] is symmetric:
    within the threshold, each code is in the answer for the other. *)
Theorem nearby_symmetric (va vb : pyval) (a b : pystr)
  (max_diff : spec_float) (zips : option (list pydict))
  (ra rb : pydict) (rest_a rest_b : list pydict)
  (pa pb : spec_float * spec_float) :
  gate va = Ok a ->
  gate vb = Ok b ->
  a <> b ->
  center_candidates a (or_default zips) = ra :: rest_a ->
  center_candidates b (or_default zips) = rb :: rest_b ->
  record_position ra = Ok (Some pa) ->
  record_position rb = Ok (Some pb) ->
  Forall scannable (or_default zips) ->
  fle (distance (fst pb) (snd pb) (fst pa) (snd pa)) max_diff = true ->
  (exists out, nearby va max_diff zips = Ok out /\ In b out)
  /\ (exists out, nearby vb max_diff zips = Ok out /\ In a out).
Proof.
  intros Hga Hgb Hne Hca Hcb Hpa Hpb Hscan Hle.
  assert (Ha : In ra (or_default zips) /\ has_code a ra = true).
  { assert (H : In ra (center_candidates a (or_default zips)))
      by (rewrite Hca; now left).
    apply filter_In in H. destruct H as [H1 H2].
    apply andb_true_iff in H2. tauto. }
  assert (Hb : In rb (or_default zips) /\ has_code b rb = true).
  { assert (H : In rb (center_candidates b (or_default zips)))
      by (rewrite Hcb; now left).
    apply filter_In in H. destruct H as [H1 H2].
    apply andb_true_iff in H2. tauto. }
  split.
  - apply (nearby_reaches va a b max_diff zips ra rb rest_a pa pb);
      tauto.
  - apply (nearby_reaches vb b a max_diff zips rb ra rest_b pb pa);
      try tauto; [congruence|].
    now rewrite distance_sym.
Qed.

(** *** Where the conversion to float is guarded and where it is not *)

Lemma nearby_center_unguarded (v : pyval) (z : pystr)
  (max_diff : spec_float) (zips : option (list pydict)) (c : pydict)
  (rest : list pydict) (e : exc) :
  gate v = Ok z ->
  center_candidates z (or_default zips) = c :: rest ->
  py_float (dict_get (lit "Latitude") PyNone c) = Raise e ->
  nearby v max_diff zips = Raise e.
Proof.
  intros Hg Hc He. unfold nearby.
  rewrite (gate_ok_run _ _ _ Hg), nearby_body_unfold, Hc.
  assert (Hp : has_position c = true).
  { assert (H : In c (center_candidates z (or_default zips)))
      by (rewrite Hc; now left).
    apply filter_In in H. destruct H as [_ H].
    now apply andb_true_iff in H. }
  apply andb_true_iff in Hp. destruct Hp as [H1 _].
  destruct (truthy_get _ _ H1) as [x [_ [Ix Gx]]].
  rewrite Gx in He. rewrite Ix; simpl. now rewrite He.
Qed.

Lemma scan_skips_unparseable (cl co md : spec_float) (pins : strset)
  (r : pydict) :
  record_position r = Ok None -> scan_step cl co md pins r = Ok pins.
Proof.
  intros H. unfold scan_step. rewrite H.
  now destruct (negb (dict_contains (lit "Pincode") r)).
Qed.

Lemma position_value_error (r : pydict) (e : exc) :
  exc_class e = ValueError ->
  py_float (dict_get (lit "Latitude") (PyStr (lit "")) r) = Raise e
  \/ (exists lat,
        py_float (dict_get (lit "Latitude") (PyStr (lit "")) r) = Ok lat
        /\ py_float (dict_get (lit "Longitude") (PyStr (lit "")) r)
           = Raise e) ->
  record_position r = Ok None.
Proof.
  intros Hc [H|[lat [H1 H2]]]; unfold record_position.
  - rewrite H; simpl. now rewrite Hc.
  - rewrite H1; simpl. rewrite H2; simpl. now rewrite Hc.
Qed.

Lemma set_iter_nil : set_iter [] = [].
Proof. apply Permutation_nil. symmetry. apply set_iter_perm. Qed.

Lemma set_iter_one (x : pystr) : set_iter [x] = [x].
Proof. apply Permutation_length_1_inv. symmetry. apply set_iter_perm. Qed.

(** C9.  [nearby] raises a [ValueError] on a dataset whose only record of
    the code has the latitude [abc]: whatever exception the conversion of
    the centre raises is the outcome of [nearby]; the same latitude on a
    record met by the scan is skipped, as is every record whose latitude
    or longitude fails to convert with a [ValueError]. *)
Theorem nearby_unguarded_center :
  nearby (PyStr Sample.code_a) max_diff_default (Some Sample.bad_center)
  = raise_builtin ValueError
  /\ nearby (PyStr Sample.code_a) max_diff_default
       (Some Sample.bad_neighbour)
     = Ok []
  /\ (forall v z max_diff zips c rest e,
        gate v = Ok z ->
        center_candidates z (or_default zips) = c :: rest ->
        py_float (dict_get (lit "Latitude") PyNone c) = Raise e ->
        nearby v max_diff zips = Raise e)
  /\ (forall cl co md pins r e,
        exc_class e = ValueError ->
        py_float (dict_get (lit "Latitude") (PyStr (lit "")) r) = Raise e
        \/ (exists lat,
              py_float (dict_get (lit "Latitude") (PyStr (lit "")) r)
              = Ok lat
              /\ py_float (dict_get (lit "Longitude") (PyStr (lit "")) r)
                 = Raise e) ->
        scan_step cl co md pins r = Ok pins).
Proof.
  split; [|split; [|split]].
  - reflexivity.
  - assert (H : nearby (PyStr Sample.code_a) max_diff_default
                  (Some Sample.bad_neighbour)
                = Ok (py_sorted (set_iter []))) by reflexivity.
    now rewrite H, set_iter_nil.
  - intros. eapply nearby_center_unguarded; eauto.
  - intros cl co md pins r e Hc H. apply scan_skips_unparseable.
    now apply (position_value_error r e).
Qed.

(** C4, at a dataset on which it fails.  Of the three records, [110001]
    and [110002] each have exactly one with a truthy and parseable
    position, and the two positions are 0.02 apart;
    yet [nearby] of [110001] raises a [ValueError], because the first
    record of [110001], whose position is the text [NA], is taken as the
    centre, while [nearby] of [110002] returns [110001]. *)
Theorem nearby_fails_behind_unparseable_record :
  length (filter (is_anchor Sample.code_a) Sample.unlocated_first) = 1%nat
  /\ length (filter (is_anchor Sample.code_b) Sample.unlocated_first)
     = 1%nat
  /\ Sample.code_a <> Sample.code_b
  /\ gate (PyStr Sample.code_a) = Ok Sample.code_a
  /\ gate (PyStr Sample.code_b) = Ok Sample.code_b
  /\ (exists pa pb,
        record_position Sample.connaught = Ok (Some pa)
        /\ record_position Sample.minto = Ok (Some pb)
        /\ fle (distance (fst pb) (snd pb) (fst pa) (snd pa))
             max_diff_default = true)
  /\ nearby (PyStr Sample.code_a) max_diff_default
       (Some Sample.unlocated_first)
     = raise_builtin ValueError
  /\ nearby (PyStr Sample.code_b) max_diff_default
       (Some Sample.unlocated_first)
     = Ok [Sample.code_a].
Proof.
  split; [vm_compute; reflexivity|].
  split; [vm_compute; reflexivity|].
  split; [discriminate|].
  split; [reflexivity|].
  split; [reflexivity|].
  split.
  { eexists. eexists. split; [vm_compute; reflexivity|].
    split; [vm_compute; reflexivity | vm_compute; reflexivity]. }
  split; [vm_compute; reflexivity|].
  assert (H : nearby (PyStr Sample.code_b) max_diff_default
                (Some Sample.unlocated_first)
              = Ok (py_sorted (set_iter [Sample.code_a])))
    by (vm_compute; reflexivity).
  rewrite H, set_iter_one. reflexivity.
Qed.

(** C10.  A malformed text, a validated code without district data and
    an input that is not a non-empty text all make [districtmatch] fail;
    the first two failures have the same class, [ValueError], and differ
    only by their message, the third has the class [TypeError]. *)
Theorem failure_classes (p q t : pyval) (s z : pystr)
  (zips1 zips2 zips3 : option (list pydict)) :
  p = PyStr s -> s <> [] ->
  (length s <> 6%nat \/ exists c, In c s /\ py_isdecimal c = false) ->
  gate q = Ok z ->
  district_values z (or_default zips2) = [] ->
  ~ nonempty_text t ->
  exists e1 e2 e3,
    districtmatch p zips1 = Raise e1
    /\ districtmatch q zips2 = Raise e2
    /\ districtmatch t zips3 = Raise e3
    /\ exc_class e1 = ValueError
    /\ exc_class e2 = ValueError
    /\ exc_class e3 = TypeError
    /\ exc_class e1 = exc_class e2
    /\ exc_class e3 <> exc_class e1
    /\ exc_msg e1 <> exc_msg e2.
Proof.
  intros -> Hs Hbad Hq Hd Ht.
  assert (Hp : exists m,
             gate (PyStr s) = Raise (Exc ValueError (Some m))
             /\ m <> "Invalid Pincode, not found in database"%string).
  { rewrite (gate_text _ Hs).
    destruct (clean_cases s) as [[_ C]|[[_ [_ C]]|[L [D _]]]].
    - rewrite C. eexists. split; [reflexivity | discriminate].
    - rewrite C. eexists. split; [reflexivity | discriminate].
    - exfalso. destruct Hbad as [Hl|Hc]; [congruence|].
      apply digits_search_spec in Hc. congruence. }
  destruct Hp as [m [Hm Hne]].
  exists (Exc ValueError (Some m)),
    (Exc ValueError (Some "Invalid Pincode, not found in database"%string)),
    (Exc TypeError (Some "Invalid type, pincode must be a string."%string)).
  split; [|split; [|split]].
  - unfold districtmatch. now rewrite gate_bind, Hm.
  - unfold districtmatch. rewrite (gate_ok_run _ _ _ Hq).
    unfold districtmatch_body. rewrite district_loop, Hd. reflexivity.
  - unfold districtmatch. now rewrite gate_bind, (gate_not_text _ Ht).
  - simpl. repeat split; try discriminate. congruence.
Qed.

(** ** Further properties of the queries *)

(** *** Existence check and exact match *)

Lemma filter_nonempty_existsb {X} (p : X -> bool) (l : list X) :
  negb (Nat.eqb (length (filter p l)) 0) = existsb p l.
Proof.
  induction l as [|x l IH]; simpl; [reflexivity|].
  destruct (p x); simpl; [reflexivity | exact IH].
Qed.

Lemma filter_idem {X} (p : X -> bool) (l : list X) :
  filter p (filter p l) = filter p l.
Proof.
  induction l as [|x l IH]; simpl; [reflexivity|].
  destruct (p x) eqn:E; simpl; [rewrite E, IH | rewrite IH]; reflexivity.
Qed.

Lemma isvalid_exists (v : pyval) (z : pystr) (zips : option (list pydict)) :
  gate v = Ok z ->
  isvalid v zips = Ok (existsb (has_code z) (or_default zips)).
Proof.
  intros Hg. unfold isvalid. rewrite (gate_ok_run _ _ _ Hg).
  rewrite (matching_filter _ _ _ (gate_of_validated _ _ Hg)). simpl.
  now rewrite filter_nonempty_existsb.
Qed.

(** [isvalid] is [matching] followed by the test that the list is not
    empty, on every input: on a rejected input both raise the same
    exception, and the second validation inside [isvalid] changes nothing.
    For a validated code the answer is [True] exactly when some record
    carries the code. *)
Theorem isvalid_is_matching (v : pyval) (zips : option (list pydict)) :
  isvalid v zips
  = (found <- matching v zips ;; Ok (negb (Nat.eqb (length found) 0)))
  /\ (forall z, gate v = Ok z ->
        (isvalid v zips = Ok true
         <-> exists e, In e (or_default zips) /\ has_code z e = true)
        /\ (isvalid v zips = Ok false
            <-> forall e, In e (or_default zips) -> has_code z e = false)).
Proof.
  split.
  - destruct (gate v) as [z|e] eqn:Hg.
    + rewrite (isvalid_exists _ _ _ Hg), (matching_filter _ _ _ Hg). simpl.
      now rewrite filter_nonempty_existsb.
    + unfold isvalid, matching. now rewrite !gate_bind, Hg.
  - intros z Hg. rewrite (isvalid_exists _ _ _ Hg). split.
    + rewrite <- existsb_exists. split; [intros H; inversion H | intros ->];
        reflexivity.
    + split.
      * intros H e He. destruct (has_code z e) eqn:E; [|reflexivity].
        assert (existsb (has_code z) (or_default zips) = true)
          by (apply existsb_exists; eauto).
        congruence.
      * intros H. f_equal.
        destruct (existsb (has_code z) (or_default zips)) eqn:E;
          [|reflexivity].
        apply existsb_exists in E. destruct E as [e [He Hc]].
        rewrite (H e He) in Hc. discriminate.
Qed.

(** [matching] respects concatenation of datasets, and searching its own
    answer again gives the same answer. *)
Theorem matching_compose (v : pyval) (z : pystr) :
  gate v = Ok z ->
  (forall zs1 zs2,
      matching v (Some (zs1 ++ zs2))
      = (a <- matching v (Some zs1) ;;
         b <- matching v (Some zs2) ;; Ok (a ++ b)))
  /\ (forall zips found,
        matching v zips = Ok found -> matching v (Some found) = Ok found).
Proof.
  intros Hg. split.
  - intros zs1 zs2. rewrite !(matching_filter _ _ _ Hg). simpl.
    now rewrite filter_app.
  - intros zips found H. rewrite (matching_filter _ _ _ Hg) in H.
    inversion H; subst found. rewrite (matching_filter _ _ _ Hg).
    cbn [or_default]. now rewrite filter_idem.
Qed.

(** *** The bundled dataset *)

Lemma contribution_has_code (line : pystr) (d : pydict) :
  In d (contribution line) ->
  strip line <> []
  /\ json_loads (strip line) = Decoded (PyDict d)
  /\ dict_contains (lit "Pincode") d = true.
Proof.
  unfold contribution. destruct (admitted line) as [o|] eqn:E;
    [|intros []].
  intros [<-|[]]. now apply admitted_iff.
Qed.

(** Every record the loader keeps carries the code field and is the object
    some line of the resource decodes to; so on the bundled dataset the
    subscript [entry["Pincode"]] finds a value for every record. *)
Theorem loaded_records_carry_code (lines : list pystr) (d : pydict) :
  In d (load lines) ->
  (exists code,
      dict_find (lit "Pincode") d = Some code
      /\ dict_item (lit "Pincode") d = Ok code)
  /\ exists line,
       In line lines /\ json_loads (strip line) = Decoded (PyDict d).
Proof.
  unfold load. rewrite load_from. simpl. rewrite in_flat_map.
  intros [line [Hl Hd]]. apply before_abort_incl in Hl.
  destruct (contribution_has_code _ _ Hd) as [_ [Hj Hc]].
  split; [|exists line; auto].
  unfold dict_contains, dict_item in *.
  destruct (dict_find (lit "Pincode") d) as [code|]; [eauto | discriminate].
Qed.

(** Loading is incremental.  The dataset of a resource cut in two always
    begins with the dataset of the first part: what was read is kept.  It
    is the dataset of the first part followed by that of the second when
    no line of the first part makes [json.loads] raise something else than
    a [JSONDecodeError], and the dataset of the first part alone when one
    does, the second part being never read.  There is at most one record
    per line. *)
Theorem load_incremental (lines1 lines2 : list pystr) :
  (exists more, load (lines1 ++ lines2) = load lines1 ++ more)
  /\ (existsb aborts lines1 = false ->
      load (lines1 ++ lines2) = load lines1 ++ load lines2)
  /\ (existsb aborts lines1 = true ->
      load (lines1 ++ lines2) = load lines1)
  /\ (forall line,
        aborts line = true
        <-> strip line <> [] /\ json_loads (strip line) = OtherError)
  /\ (length (load lines1) <= length lines1)%nat.
Proof.
  unfold load. rewrite !load_from. simpl. rewrite before_abort_app.
  assert (Hnone : existsb aborts lines1 = false ->
                  before_abort lines1 = lines1).
  { intros H. apply before_abort_all. apply Forall_forall. intros l Hl.
    destruct (aborts l) eqn:E; [|reflexivity].
    assert (existsb aborts lines1 = true) by (apply existsb_exists; eauto).
    congruence. }
  split; [|split; [|split; [|split]]].
  - destruct (existsb aborts lines1) eqn:E.
    + exists []. now rewrite app_nil_r.
    + exists (flat_map contribution (before_abort lines2)).
      now rewrite (Hnone eq_refl), flat_map_app.
  - intros E. now rewrite E, (Hnone E), flat_map_app.
  - intros E. now rewrite E.
  - apply aborts_iff.
  - clear Hnone. induction lines1 as [|l ls IH]; simpl; [lia|].
    destruct (aborts l); simpl; [lia|].
    rewrite length_app. unfold contribution at 1.
    destruct (admitted l); simpl; lia.
Qed.

(** *** What raises in [districtmatch] and [coordinates] *)

Lemma run_ok_inv {A} (fn : pystr -> result A) (v : pyval) (a : A) :
  _clean_zipcode fn v = Ok a -> exists z, gate v = Ok z /\ fn z = Ok a.
Proof.
  rewrite gate_bind. destruct (gate v) as [z|e]; simpl;
    [eauto | discriminate].
Qed.

Lemma num_key_not_text (n e : Z) (s : pystr) : num_key n e <> KStr s.
Proof.
  unfold num_key. destruct n as [|p|p]; try discriminate;
    destruct (odd_part p); discriminate.
Qed.

Lemma key_of_text (v : pyval) (s : pystr) :
  key_of v = Some (KStr s) -> v = PyStr s.
Proof.
  destruct v as [| b | n | x | t | items | items]; simpl;
    try discriminate.
  - intros H. inversion H as [H1]. now apply num_key_not_text in H1.
  - intros H. inversion H as [H1]. now apply num_key_not_text in H1.
  - destruct x as [sx|sx| |sx m e]; try discriminate.
    intros H. inversion H as [H1]. now apply num_key_not_text in H1.
  - intros H. now inversion H.
Qed.

Lemma py_eq_non_text (v e : pyval) :
  isinstance_str v = false -> py_eq v e = true -> isinstance_str e = false.
Proof.
  intros Hv H. apply py_eq_iff in H. destruct H as [k [Kv Ke]].
  destruct e as [| b | n | x | t | items | items]; try reflexivity.
  simpl in Ke. inversion Ke; subst k.
  apply key_of_text in Kv. subst v. discriminate.
Qed.

Lemma all_str_non_text (s : pyset) :
  Exists (fun d => isinstance_str d = false) s -> all_str s = None.
Proof.
  induction 1 as [d s Hd | d s _ IH].
  - destruct d; try reflexivity. discriminate.
  - destruct d; try reflexivity. simpl. now rewrite IH.
Qed.

Lemma collect_non_text (vals : list pyval) :
  forall acc,
    Exists (fun d => isinstance_str d = false) vals
    \/ Exists (fun d => isinstance_str d = false) acc ->
    match for_each (fun districts d => set_add d districts) vals acc with
    | Ok s => Exists (fun d => isinstance_str d = false) s
    | Raise e => e = Exc TypeError None
    end.
Proof.
  induction vals as [|v vals IH]; intros acc H; simpl.
  - destruct H as [H|H]; [inversion H | exact H].
  - unfold set_add at 1. destruct (hashable v); simpl; [|reflexivity].
    apply IH.
    destruct H as [H|H].
    + inversion H as [? ? Hv | ? ? Hv]; subst; [|now left].
      right. destruct (existsb (py_eq v) acc) eqn:E.
      * apply existsb_exists in E. destruct E as [e [He Heq]].
        apply Exists_exists. exists e. split; [exact He|].
        now apply (py_eq_non_text v e).
      * apply Exists_app. right. now constructor.
    + right. destruct (existsb (py_eq v) acc); [exact H|].
      apply Exists_app. now left.
Qed.

(** [districtmatch] returns no string when a truthy district value of a
    record of the code is not a text: it raises a [TypeError] of the
    interpreter, from [set.add] when the value is unhashable or else from
    [join]. *)
Theorem districtmatch_rejects_non_text (v : pyval) (z : pystr)
  (zips : option (list pydict)) :
  gate v = Ok z ->
  Exists (fun d => isinstance_str d = false)
    (district_values z (or_default zips)) ->
  districtmatch v zips = raise_builtin TypeError.
Proof.
  intros Hg He. unfold districtmatch. rewrite (gate_ok_run _ _ _ Hg).
  unfold districtmatch_body. rewrite district_loop.
  pose proof (collect_non_text _ [] (or_introl He)) as H.
  destruct (for_each (fun districts d => set_add d districts)
              (district_values z (or_default zips)) [])
    as [s|e]; simpl.
  - rewrite (all_str_non_text _ H).
    destruct s; [inversion H | reflexivity].
  - now subst e.
Qed.

Lemma strset_of_same (d : pystr) (vals : list pyval) :
  Forall (fun x => x = PyStr d) vals ->
  strset_of (texts vals) [d] = [d].
Proof.
  induction 1 as [|x vals Hx _ IH]; [reflexivity|].
  subst x. unfold strset_of in *. simpl. unfold strset_add at 2. simpl.
  now rewrite pystr_eqb_refl.
Qed.

(** A code all of whose records name the same district (those that name
    one at all): [districtmatch] returns that name, whatever the order of
    iteration of sets. *)
Theorem districtmatch_single (v : pyval) (z d : pystr)
  (zips : option (list pydict)) :
  gate v = Ok z ->
  district_values z (or_default zips) <> [] ->
  Forall (fun x => x = PyStr d) (district_values z (or_default zips)) ->
  districtmatch v zips = Ok d.
Proof.
  intros Hg Hne Hall. unfold districtmatch. rewrite (gate_ok_run _ _ _ Hg).
  rewrite districtmatch_body_texts.
  - destruct (district_values z (or_default zips)) as [|x vals];
      [congruence|].
    inversion Hall as [|? ? Hx Hv]; subst.
    change (strset_of (texts (PyStr d :: vals)) [])
      with (strset_of (texts vals) [d]).
    rewrite (strset_of_same d vals Hv), set_iter_one. reflexivity.
  - apply Forall_forall. intros a Ha. rewrite Forall_forall in Hall.
    now rewrite (Hall a Ha).
Qed.

Lemma districtmatch_body_ok (z s : pystr) (zips : option (list pydict)) :
  districtmatch_body z zips = Ok s ->
  district_values z (or_default zips) <> [].
Proof.
  unfold districtmatch_body. rewrite district_loop. intros H Hnil.
  rewrite Hnil in H. discriminate.
Qed.

Lemma coords_loop_raise (matches : list pydict) :
  Exists (fun e => hashable (name_of e) = false) matches ->
  forall m,
    for_each
      (fun coords_map entry =>
         let name := dict_get (lit "Name") (PyStr (lit "Unknown")) entry in
         let lat := dict_get (lit "Latitude") (PyStr (lit "")) entry in
         let lon := dict_get (lit "Longitude") (PyStr (lit "")) entry in
         dict_setitem name
           {| latitude := py_str lat; longitude := py_str lon |} coords_map)
      matches m
    = raise_builtin TypeError.
Proof.
  induction matches as [|e matches IH]; intros H m; [inversion H|].
  simpl. unfold dict_setitem at 1. fold (name_of e).
  destruct (hashable (name_of e)) eqn:E; simpl; [|reflexivity].
  apply IH. inversion H; subst; [congruence | assumption].
Qed.

Lemma hashable_names_dec (matches : list pydict) :
  Forall (fun e => hashable (name_of e) = true) matches
  \/ Exists (fun e => hashable (name_of e) = false) matches.
Proof.
  induction matches as [|e matches [IH|IH]].
  - left. constructor.
  - destruct (hashable (name_of e)) eqn:E;
      [left; now constructor | right; now constructor].
  - right. now constructor 2.
Qed.

Lemma coordinates_run (v : pyval) (z : pystr) (zips : option (list pydict)) :
  gate v = Ok z ->
  (Forall (fun e => hashable (name_of e) = true)
     (filter (has_code z) (or_default zips))
   /\ coordinates v zips
      = Ok (coords_fold (filter (has_code z) (or_default zips)) []))
  \/ (Exists (fun e => hashable (name_of e) = false)
        (filter (has_code z) (or_default zips))
      /\ coordinates v zips = raise_builtin TypeError).
Proof.
  intros Hg. unfold coordinates. rewrite (gate_ok_run _ _ _ Hg).
  unfold coordinates_body.
  rewrite (matching_filter _ _ _ (gate_of_validated _ _ Hg)). simpl.
  destruct (hashable_names_dec (filter (has_code z) (or_default zips)))
    as [H|H]; [left | right]; (split; [exact H|]).
  - now apply coords_loop.
  - now apply coords_loop_raise.
Qed.

(** For a validated code, [coordinates] raises exactly when the name of
    some record of the code is unhashable (a list or a mapping), and what
    it raises is a [TypeError] of the interpreter; otherwise it returns. *)
Theorem coordinates_raises_iff (v : pyval) (z : pystr)
  (zips : option (list pydict)) :
  gate v = Ok z ->
  (coordinates v zips = raise_builtin TypeError
   <-> Exists (fun e => hashable (name_of e) = false)
         (filter (has_code z) (or_default zips)))
  /\ ((exists m, coordinates v zips = Ok m)
      <-> Forall (fun e => hashable (name_of e) = true)
            (filter (has_code z) (or_default zips)))
  /\ (forall e, coordinates v zips = Raise e -> e = Exc TypeError None).
Proof.
  intros Hg.
  destruct (coordinates_run v z zips Hg) as [[Hf Ho]|[He Hr]].
  - rewrite Ho. split; [|split].
    + split; [discriminate|].
      intros He. exfalso. apply Exists_exists in He.
      destruct He as [e [Hin Hh]]. rewrite Forall_forall in Hf.
      rewrite (Hf e Hin) in Hh. discriminate.
    + split; [intros _; exact Hf | intros _; eauto].
    + discriminate.
  - rewrite Hr. split; [|split].
    + tauto.
    + split; [intros [m Hm]; discriminate|].
      intros Hf. exfalso. apply Exists_exists in He.
      destruct He as [e [Hin Hh]]. rewrite Forall_forall in Hf.
      rewrite (Hf e Hin) in Hh. discriminate.
    + intros e H. now inversion H.
Qed.

Lemma dict_update_length (k : pyval) (c : coord) (m : coords_dict) :
  (length m <= length (dict_update k c m) <= S (length m))%nat
  /\ dict_update k c m <> [].
Proof.
  induction m as [|[k' c'] m [IH _]]; simpl.
  - split; [lia | discriminate].
  - destruct (py_eq k' k); simpl; split; try discriminate; lia.
Qed.

Lemma coords_fold_length (matches : list pydict) (m : coords_dict) :
  (length m <= length (coords_fold matches m)
   <= length m + length matches)%nat.
Proof.
  unfold coords_fold. revert m.
  induction matches as [|e matches IH]; intros m; simpl; [lia|].
  pose proof (dict_update_length (name_of e) (coord_of e) m) as [H _].
  specialize (IH (dict_update (name_of e) (coord_of e) m)). lia.
Qed.

(** A mapping returned by [coordinates] has at most as many entries as
    [matching] returns records, and is empty exactly when no record
    carries the code. *)
Theorem coordinates_size (v : pyval) (z : pystr)
  (zips : option (list pydict)) (m : coords_dict) :
  gate v = Ok z ->
  coordinates v zips = Ok m ->
  (length m <= length (filter (has_code z) (or_default zips)))%nat
  /\ (m = [] <-> filter (has_code z) (or_default zips) = []).
Proof.
  intros Hg Hm.
  destruct (coordinates_run v z zips Hg) as [[_ Ho]|[_ Hr]];
    [|rewrite Hr in Hm; discriminate].
  rewrite Ho in Hm. inversion Hm; subst m; clear Hm.
  pose proof (coords_fold_length (filter (has_code z) (or_default zips)) [])
    as Hl.
  simpl in Hl. split; [lia|].
  destruct (filter (has_code z) (or_default zips)) as [|e ms];
    [split; reflexivity|].
  split; [|discriminate].
  intros H. exfalso.
  pose proof (coords_fold_length ms
                (dict_update (name_of e) (coord_of e) [])) as Hl'.
  change (coords_fold (e :: ms) [])
    with (coords_fold ms (dict_update (name_of e) (coord_of e) [])) in H.
  rewrite H in Hl'. simpl in Hl'. lia.
Qed.

(** *** What [nearby] returns *)

Lemma for_each_inv_in {S X} (body : S -> X -> result S) (I : S -> Prop)
  (xs : list X) :
  (forall s x s', In x xs -> I s -> body s x = Ok s' -> I s') ->
  forall s s', I s -> for_each body xs s = Ok s' -> I s'.
Proof.
  induction xs as [|x xs IH]; intros Hb s s' Hs H; simpl in H.
  - inversion H; subst. exact Hs.
  - apply bind_ok in H. destruct H as [s1 [H1 H2]].
    apply (IH (fun t y t' Hy => Hb t y t' (or_intror Hy)) s1 s');
      [|exact H2].
    apply (Hb s x s1); [now left | exact Hs | exact H1].
Qed.

Lemma for_each_raise {S X} (body : S -> X -> result S) (xs : list X)
  (s : S) (e : exc) :
  for_each body xs s = Raise e ->
  exists s' x, In x xs /\ body s' x = Raise e.
Proof.
  revert s; induction xs as [|x xs IH]; intros s H; simpl in H;
    [discriminate|].
  destruct (body s x) as [s1|e1] eqn:E; simpl in H.
  - destruct (IH s1 H) as [s' [y [Hy Hb]]]. exists s', y. split; auto.
    now right.
  - inversion H; subst. exists s, x. split; [now left | exact E].
Qed.

Lemma center_position (c : pydict) (lat0 lon0 : pyval)
  (clat clon : spec_float) :
  has_position c = true ->
  dict_item (lit "Latitude") c = Ok lat0 -> py_float lat0 = Ok clat ->
  dict_item (lit "Longitude") c = Ok lon0 -> py_float lon0 = Ok clon ->
  record_position c = Ok (Some (clat, clon)).
Proof.
  unfold has_position. rewrite andb_true_iff. intros [H1 H2] I1 P1 I2 P2.
  destruct (truthy_get _ _ H1) as [x [_ [Ix Gx]]].
  destruct (truthy_get _ _ H2) as [y [_ [Iy Gy]]].
  rewrite Ix in I1. rewrite Iy in I2. inversion I1; inversion I2; subst.
  unfold record_position. rewrite Gx, Gy, P1. simpl. now rewrite P2.
Qed.

Lemma center_has_position (z : pystr) (zs : list pydict) (c : pydict)
  (rest : list pydict) :
  center_candidates z zs = c :: rest ->
  In c zs /\ has_code z c = true /\ has_position c = true.
Proof.
  intros Hc.
  assert (H : In c (center_candidates z zs)) by (rewrite Hc; now left).
  apply filter_In in H. destruct H as [H1 H2].
  apply andb_true_iff in H2. tauto.
Qed.

Lemma nearby_ok_inv (v : pyval) (z : pystr) (md : spec_float)
  (zips : option (list pydict)) (out : list pystr) :
  gate v = Ok z ->
  nearby v md zips = Ok out ->
  (center_candidates z (or_default zips) = [] /\ out = [])
  \/ exists c rest clat clon pins,
       center_candidates z (or_default zips) = c :: rest
       /\ record_position c = Ok (Some (clat, clon))
       /\ for_each (scan_step clat clon md) (or_default zips) [] = Ok pins
       /\ out = py_sorted (set_iter (strset_remove z pins)).
Proof.
  intros Hg H. unfold nearby in H. rewrite (gate_ok_run _ _ _ Hg) in H.
  rewrite nearby_body_unfold in H.
  destruct (center_candidates z (or_default zips)) as [|c cs] eqn:Hc.
  { left. inversion H. auto. }
  right. destruct (center_has_position _ _ _ _ Hc) as [_ [_ Hp]].
  apply bind_ok in H. destruct H as [lat0 [I1 H]].
  apply bind_ok in H. destruct H as [clat [P1 H]].
  apply bind_ok in H. destruct H as [lon0 [I2 H]].
  apply bind_ok in H. destruct H as [clon [P2 H]].
  apply bind_ok in H. destruct H as [pins [Hscan H]].
  inversion H; subst out.
  exists c, cs, clat, clon, pins. repeat split; auto.
  now apply (center_position c lat0 lon0).
Qed.

Lemma scan_step_sound (cl co md : spec_float) (pins pins' : strset)
  (r : pydict) (x : pystr) :
  scan_step cl co md pins r = Ok pins' ->
  In x pins' ->
  In x pins
  \/ exists p,
       has_code x r = true
       /\ record_position r = Ok (Some p)
       /\ fle (distance (fst p) (snd p) cl co) md = true.
Proof.
  unfold scan_step, dict_contains, dict_item, has_code.
  destruct (dict_find (lit "Pincode") r) as [code|]; simpl;
    [|intros H; inversion H; auto].
  destruct (record_position r) as [[[lat lon]|]|e]; simpl;
    try (intros H; inversion H; auto; fail).
  destruct (fle (distance lat lon cl co) md) eqn:E; simpl;
    [|intros H; inversion H; auto].
  intros H Hin. inversion H; subst pins'.
  apply strset_add_in in Hin. destruct Hin as [->|Hin]; [|now left].
  right. exists (lat, lon). split; [apply pystr_eqb_refl|]. auto.
Qed.

Lemma scan_ok_scannable (cl co md : spec_float) (zs : list pydict) :
  forall pins s,
    for_each (scan_step cl co md) zs pins = Ok s -> Forall scannable zs.
Proof.
  induction zs as [|r zs IH]; intros pins s H; [constructor|].
  simpl in H. apply bind_ok in H. destruct H as [s1 [H1 H2]].
  constructor; [|now apply (IH s1 s)].
  intros Hc. unfold scan_step in H1. rewrite Hc in H1. simpl in H1.
  destruct (record_position r) as [p|e]; [eauto | discriminate].
Qed.

Lemma scan_complete (cl co md : spec_float) (zs : list pydict)
  (pins : strset) (r : pydict) (p : spec_float * spec_float) (x : pystr) :
  for_each (scan_step cl co md) zs [] = Ok pins ->
  In r zs ->
  has_code x r = true ->
  record_position r = Ok (Some p) ->
  fle (distance (fst p) (snd p) cl co) md = true ->
  In x pins.
Proof.
  intros Hs Hr Hc Hp Hle.
  destruct (scan_grows cl co md zs (scan_ok_scannable _ _ _ _ _ _ Hs) [])
    as [pins' [E [_ Hadd]]].
  rewrite Hs in E. inversion E; subst pins'.
  destruct (has_code_find _ _ Hc) as [code [Hf <-]].
  now apply (Hadd r code p).
Qed.

(** What [nearby] returns, exactly: a code is in the answer if and only if
    it differs from the reference code and is the code of a record of the
    dataset whose latitude and longitude parse and lie within [max_diff]
    of the centre, the first record of the reference code with truthy
    latitude and longitude. *)
Theorem nearby_membership (v : pyval) (z : pystr) (max_diff : spec_float)
  (zips : option (list pydict)) (out : list pystr) (x : pystr) :
  gate v = Ok z ->
  nearby v max_diff zips = Ok out ->
  (In x out
   <-> x <> z
       /\ exists c rest pc r p,
            center_candidates z (or_default zips) = c :: rest
            /\ record_position c = Ok (Some pc)
            /\ In r (or_default zips)
            /\ has_code x r = true
            /\ record_position r = Ok (Some p)
            /\ fle (distance (fst p) (snd p) (fst pc) (snd pc)) max_diff
               = true).
Proof.
  intros Hg H.
  destruct (nearby_ok_inv _ _ _ _ _ Hg H)
    as [[Hc ->]|[c [rest [clat [clon [pins [Hc [Hp [Hs ->]]]]]]]]].
  { split; [intros [] | intros [_ [c [rest [pc [r [p [Hc' _]]]]]]]].
    congruence. }
  assert (Hout : forall y,
             In y (py_sorted (set_iter (strset_remove z pins)))
             <-> In y pins /\ y <> z).
  { intros y. rewrite <- strset_remove_in. split; intros Hy.
    - apply (Permutation_in _ (set_iter_perm _)).
      apply (Permutation_in _ (py_sorted_perm _) Hy).
    - apply (Permutation_in _ (Permutation_sym (py_sorted_perm _))).
      apply (Permutation_in _ (Permutation_sym (set_iter_perm _)) Hy). }
  rewrite Hout. split.
  - intros [Hx Hne]. split; [exact Hne|].
    exists c, rest, (clat, clon).
    assert (Hinv : forall y, In y pins ->
               exists r p,
                 In r (or_default zips) /\ has_code y r = true
                 /\ record_position r = Ok (Some p)
                 /\ fle (distance (fst p) (snd p) clat clon) max_diff
                    = true).
    { refine (for_each_inv_in (scan_step clat clon max_diff)
                (fun s => forall y, In y s -> _) (or_default zips)
                _ [] pins _ Hs).
      - intros s r s' Hr Hi Hstep y Hy.
        destruct (scan_step_sound _ _ _ _ _ _ _ Hstep Hy) as [Hold|[p Hp']].
        + now apply Hi.
        + exists r, p. tauto.
      - intros y []. }
    destruct (Hinv x Hx) as [r [p Hr]]. exists r, p. simpl. tauto.
  - intros [Hne [c' [rest' [pc [r [p [Hc' [Hp' [Hr [Hcode [Hpr Hle]]]]]]]]]]].
    split; [|exact Hne].
    rewrite Hc in Hc'. inversion Hc'; subst c' rest'.
    rewrite Hp in Hp'. inversion Hp'; subst pc. simpl in Hle.
    now apply (scan_complete clat clon max_diff (or_default zips) pins r p x).
Qed.

(** [nearby] returns the empty list, and raises nothing, for a validated
    code none of whose records has both a truthy latitude and a truthy
    longitude, whether or not some record carries the code. *)
Theorem nearby_without_position (v : pyval) (z : pystr)
  (max_diff : spec_float) (zips : option (list pydict)) :
  gate v = Ok z ->
  (forall e, In e (or_default zips) -> has_code z e = true ->
             has_position e = false) ->
  nearby v max_diff zips = Ok [].
Proof.
  intros Hg H. unfold nearby. rewrite (gate_ok_run _ _ _ Hg).
  rewrite nearby_body_unfold.
  assert (Hc : center_candidates z (or_default zips) = []).
  { apply filter_nil_all. intros e He.
    destruct (has_code z e) eqn:E; [|reflexivity].
    now rewrite (H e He E). }
  now rewrite Hc.
Qed.

(** *** The threshold *)

Lemma fle_trans (x y z : spec_float) :
  fle x y = true -> fle y z = true -> fle x z = true.
Proof.
  unfold fle, SFleb, SFcompare.
  destruct x as [sx|sx| |sx mx ex], y as [sy|sy| |sy my ey],
    z as [sz|sz| |sz mz ez];
    try destruct sx; try destruct sy; try destruct sz;
    simpl; try discriminate; try reflexivity;
    repeat match goal with
    | |- context [Z.compare ?a ?b] => destruct (Z.compare_spec a b)
    end; subst;
    rewrite ?Pos.compare_cont_spec; simpl;
    repeat match goal with
    | |- context [Pos.compare ?a ?b] => destruct (Pos.compare_spec a b)
    end; subst; simpl; try discriminate; try reflexivity; intros; try lia.
Qed.

Lemma scan_step_mono (cl co md md' : spec_float) (pins pins' s : strset)
  (r : pydict) :
  fle md md' = true ->
  incl pins pins' ->
  scan_step cl co md pins r = Ok s ->
  exists s', scan_step cl co md' pins' r = Ok s' /\ incl s s'.
Proof.
  intros Hle Hi. unfold scan_step, dict_contains, dict_item.
  destruct (dict_find (lit "Pincode") r) as [code|]; simpl;
    [|intros H; inversion H; subst; eauto].
  destruct (record_position r) as [[[lat lon]|]|e]; simpl;
    [|intros H; inversion H; subst; eauto | discriminate].
  destruct (fle (distance lat lon cl co) md) eqn:E; simpl.
  - rewrite (fle_trans _ _ _ E Hle). simpl.
    intros H; inversion H; subst. eexists. split; [reflexivity|].
    intros y Hy. apply strset_add_in in Hy. apply strset_add_in.
    destruct Hy as [->|Hy]; [now left | right; now apply Hi].
  - intros H; inversion H; subst.
    destruct (fle (distance lat lon cl co) md'); simpl;
      eexists; (split; [reflexivity|]); [|exact Hi].
    intros y Hy. apply strset_add_in. right. now apply Hi.
Qed.

Lemma scan_mono (cl co md md' : spec_float) (zs : list pydict) :
  fle md md' = true ->
  forall pins pins' s,
    incl pins pins' ->
    for_each (scan_step cl co md) zs pins = Ok s ->
    exists s', for_each (scan_step cl co md') zs pins' = Ok s' /\ incl s s'.
Proof.
  intros Hle. induction zs as [|r zs IH]; intros pins pins' s Hi H;
    simpl in *.
  - inversion H; subst. eauto.
  - apply bind_ok in H. destruct H as [s1 [H1 H2]].
    destruct (scan_step_mono _ _ _ _ _ _ _ _ Hle Hi H1) as [s1' [E1 Hi1]].
    rewrite E1; simpl. now apply (IH s1 s1' s).
Qed.

(** The higher the threshold, the more codes: when [max_diff <= max_diff']
    and [nearby] returns with [max_diff], it returns with [max_diff'] too,
    and every code of the first answer is in the second. *)
Theorem nearby_monotone (v : pyval) (z : pystr)
  (max_diff max_diff' : spec_float) (zips : option (list pydict))
  (out : list pystr) :
  gate v = Ok z ->
  fle max_diff max_diff' = true ->
  nearby v max_diff zips = Ok out ->
  exists out', nearby v max_diff' zips = Ok out' /\ incl out out'.
Proof.
  intros Hg Hle H.
  destruct (nearby_ok_inv _ _ _ _ _ Hg H)
    as [[Hc ->]|[c [rest [clat [clon [pins [Hc [Hp [Hs ->]]]]]]]]].
  - exists []. split; [|intros y []].
    unfold nearby. rewrite (gate_ok_run _ _ _ Hg), nearby_body_unfold.
    now rewrite Hc.
  - destruct (scan_mono clat clon _ _ (or_default zips) Hle [] [] pins
                (incl_refl _) Hs) as [pins' [Hs' Hi]].
    exists (py_sorted (set_iter (strset_remove z pins'))). split.
    + unfold nearby. rewrite (gate_ok_run _ _ _ Hg), nearby_body_unfold, Hc.
      destruct (center_has_position _ _ _ _ Hc) as [_ [_ Hpos]].
      rewrite (anchor_position c clat clon _ Hpos Hp).
      now rewrite Hs'.
    + intros y Hy.
      apply (Permutation_in _ (py_sorted_perm _)) in Hy.
      apply (Permutation_in _ (set_iter_perm _)) in Hy.
      apply strset_remove_in in Hy. destruct Hy as [Hy Hne].
      apply (Permutation_in _ (Permutation_sym (py_sorted_perm _))).
      apply (Permutation_in _ (Permutation_sym (set_iter_perm _))).
      apply strset_remove_in. split; [now apply Hi | exact Hne].
Qed.

Lemma round_aux_sign_clear (m e : Z) (l : location) :
  sign_clear (binary_round_aux prec emax false m e l).
Proof.
  unfold binary_round_aux.
  destruct (shr_fexp prec emax m e l) as [mrs e'].
  destruct (shr_fexp prec emax _ e' loc_Exact) as [mrs' e''].
  destruct (shr_m mrs'); [reflexivity | | exact I].
  destruct (Z.leb e'' (emax - prec)); reflexivity.
Qed.

Lemma fabs_sign_clear (x : spec_float) : sign_clear (fabs x).
Proof. destruct x; simpl; auto; reflexivity. Qed.

Lemma fadd_sign_clear (x y : spec_float) :
  sign_clear x -> sign_clear y -> sign_clear (fadd x y).
Proof.
  destruct x as [sx|sx| |sx mx ex], y as [sy|sy| |sy my ey]; simpl;
    intros Hx Hy; subst; simpl; auto.
  unfold binary_normalize. simpl.
  unfold binary_round. destruct (shl_align _ _ _) as [mz ez].
  apply round_aux_sign_clear.
Qed.

Lemma distance_sign_clear (lat lon clat clon : spec_float) :
  sign_clear (distance lat lon clat clon).
Proof. apply fadd_sign_clear; apply fabs_sign_clear. Qed.

Lemma fle_below_zero (d md : spec_float) :
  sign_clear d -> fle (S754_zero false) md = false -> fle d md = false.
Proof.
  unfold fle, SFleb, SFcompare.
  destruct d as [sd|sd| |sd m e], md as [s|s| |s m' e']; simpl;
    intros Hd; subst; try destruct s; simpl; congruence.
Qed.

(** With a threshold that zero does not reach, that is a negative number
    or a NaN, no record is near: whatever [nearby] returns is the empty
    list. *)
Theorem nearby_threshold_below_zero (v : pyval) (z : pystr)
  (max_diff : spec_float) (zips : option (list pydict))
  (out : list pystr) :
  gate v = Ok z ->
  fle (S754_zero false) max_diff = false ->
  nearby v max_diff zips = Ok out ->
  out = [].
Proof.
  intros Hg Hm H.
  destruct (nearby_ok_inv _ _ _ _ _ Hg H)
    as [[_ ->]|[c [rest [clat [clon [pins [Hc [Hp [Hs ->]]]]]]]]];
    [reflexivity|].
  assert (Hnil : pins = []).
  { refine (for_each_inv (scan_step clat clon max_diff)
              (fun s => s = []) _ (or_default zips) [] pins eq_refl Hs).
    intros s r s' -> Hstep.
    destruct s' as [|y s']; [reflexivity|]. exfalso.
    destruct (scan_step_sound _ _ _ _ _ _ y Hstep (or_introl eq_refl))
      as [[]|[p [_ [_ Hle]]]].
    rewrite (fle_below_zero _ _ (distance_sign_clear _ _ _ _) Hm) in Hle.
    discriminate. }
  subst pins. change (strset_remove z []) with (@nil pystr).
  now rewrite set_iter_nil.
Qed.

(** *** What the queries raise, and what an answer implies *)

Lemma text_values_dec (vals : list pyval) :
  Forall (fun d => isinstance_str d = true) vals
  \/ Exists (fun d => isinstance_str d = false) vals.
Proof.
  induction vals as [|d vals [IH|IH]].
  - left. constructor.
  - destruct (isinstance_str d) eqn:E;
      [left; now constructor | right; now constructor].
  - right. now constructor 2.
Qed.

(** For a validated code, [districtmatch] raises nothing but its not-found
    [ValueError], when no record of the code has a truthy district, and
    the [TypeError] of the interpreter, when such a district is not a
    text. *)
Theorem districtmatch_errors (v : pyval) (z : pystr)
  (zips : option (list pydict)) (e : exc) :
  gate v = Ok z ->
  districtmatch v zips = Raise e ->
  (e = Exc ValueError (Some "Invalid Pincode, not found in database"%string)
   /\ district_values z (or_default zips) = [])
  \/ (e = Exc TypeError None
      /\ Exists (fun d => isinstance_str d = false)
           (district_values z (or_default zips))).
Proof.
  intros Hg H.
  destruct (text_values_dec (district_values z (or_default zips)))
    as [Hf|He].
  - left. unfold districtmatch in H. rewrite (gate_ok_run _ _ _ Hg) in H.
    rewrite (districtmatch_body_texts _ _ Hf) in H.
    destruct (district_values z (or_default zips)) as [|d vals] eqn:Ev.
    + inversion H. auto.
    + exfalso. inversion Hf as [|? ? Hd _]; subst.
      destruct d; try discriminate.
      assert (Hin : In s (strset_of (texts (PyStr s :: vals)) [])).
      { apply strset_of_in. right. apply texts_in. now left. }
      destruct (strset_of (texts (PyStr s :: vals)) []);
        [destruct Hin | discriminate].
  - right. split; [|exact He].
    unfold districtmatch in H. rewrite (gate_ok_run _ _ _ Hg) in H.
    unfold districtmatch_body in H. rewrite district_loop in H.
    pose proof (collect_non_text _ [] (or_introl He)) as Hc.
    destruct (for_each (fun districts d => set_add d districts)
                (district_values z (or_default zips)) [])
      as [s|e']; simpl in H.
    + rewrite (all_str_non_text _ Hc) in H.
      destruct s; [inversion Hc | now inversion H].
    + inversion H; subst. reflexivity.
Qed.

Lemma float_of_str_raise (s : pystr) (e : exc) :
  float_of_str s = Raise e -> e = Exc ValueError None.
Proof.
  unfold float_of_str.
  destruct (if existsb _ _ then _ else _) as [body|];
    [|intros H; now inversion H].
  destruct (parse_inf_or_nan body); [discriminate|].
  destruct (parse_decimal body); [discriminate|].
  intros H; now inversion H.
Qed.

Lemma py_float_raise (v : pyval) (e : exc) :
  py_float v = Raise e ->
  e = Exc ValueError None \/ e = Exc TypeError None
  \/ e = Exc OverflowError None.
Proof.
  destruct v as [| b | n | x | s | items | items]; simpl;
    try (intros H; inversion H; auto; fail).
  - unfold float_of_int.
    destruct (binary_normalize prec emax n 0 false);
      try discriminate. intros H; inversion H; auto.
  - intros H. left. now apply float_of_str_raise in H.
Qed.

Lemma record_position_raise (r : pydict) (e : exc) :
  record_position r = Raise e ->
  e = Exc TypeError None \/ e = Exc OverflowError None.
Proof.
  unfold record_position, try_except.
  destruct (py_float (dict_get (lit "Latitude") _ r)) as [lat|e1] eqn:E1;
    simpl.
  - destruct (py_float (dict_get (lit "Longitude") _ r)) as [lon|e2] eqn:E2;
      simpl; [discriminate|].
    destruct (py_float_raise _ _ E2) as [-> | [-> | ->]]; simpl;
      try discriminate; intros H; inversion H; auto.
  - destruct (py_float_raise _ _ E1) as [-> | [-> | ->]]; simpl;
      try discriminate; intros H; inversion H; auto.
Qed.

Lemma scan_step_raise (cl co md : spec_float) (pins : strset) (r : pydict)
  (e : exc) :
  scan_step cl co md pins r = Raise e -> record_position r = Raise e.
Proof.
  unfold scan_step, dict_contains, dict_item.
  destruct (dict_find (lit "Pincode") r) as [code|]; simpl;
    [|discriminate].
  destruct (record_position r) as [[[lat lon]|]|e']; simpl;
    try discriminate; [|intros H; now inversion H].
  destruct (fle (distance lat lon cl co) md); discriminate.
Qed.

(** For a validated code, what [nearby] raises is an exception of [float]:
    a [ValueError], [TypeError] or [OverflowError] with the message of the
    interpreter, and never a [KeyError].  A [ValueError] always comes from
    the centre, the first record of the code with truthy latitude and
    longitude: the scan raises none. *)
Theorem nearby_errors (v : pyval) (z : pystr) (max_diff : spec_float)
  (zips : option (list pydict)) (e : exc) :
  gate v = Ok z ->
  nearby v max_diff zips = Raise e ->
  (e = Exc ValueError None \/ e = Exc TypeError None
   \/ e = Exc OverflowError None)
  /\ (exc_class e = ValueError ->
      exists c rest,
        center_candidates z (or_default zips) = c :: rest
        /\ (py_float (dict_get (lit "Latitude") PyNone c) = Raise e
            \/ py_float (dict_get (lit "Longitude") PyNone c) = Raise e)).
Proof.
  intros Hg H. unfold nearby in H. rewrite (gate_ok_run _ _ _ Hg) in H.
  rewrite nearby_body_unfold in H.
  destruct (center_candidates z (or_default zips)) as [|c cs] eqn:Hc;
    [discriminate|].
  destruct (center_has_position _ _ _ _ Hc) as [_ [_ Hp]].
  unfold has_position in Hp. apply andb_true_iff in Hp.
  destruct Hp as [H1 H2].
  destruct (truthy_get _ _ H1) as [x [_ [Ix Gx]]].
  destruct (truthy_get _ _ H2) as [y [_ [Iy Gy]]].
  rewrite Ix in H; simpl in H.
  destruct (py_float x) as [clat|e1] eqn:E1; simpl in H.
  - rewrite Iy in H; simpl in H.
    destruct (py_float y) as [clon|e2] eqn:E2; simpl in H.
    + destruct (for_each (scan_step clat clon max_diff) (or_default zips) [])
        as [pins|e3] eqn:E3; simpl in H; [discriminate|].
      inversion H; subst e3.
      destruct (for_each_raise _ _ _ _ E3) as [s' [r [_ Hr]]].
      apply scan_step_raise in Hr.
      destruct (record_position_raise _ _ Hr) as [-> | ->];
        (split; [auto | discriminate]).
    + inversion H; subst e2. split; [now apply (py_float_raise y)|].
      intros _. exists c, cs. split; [reflexivity|]. right. now rewrite Gy.
  - inversion H; subst e1. split; [now apply (py_float_raise x)|].
    intros _. exists c, cs. split; [reflexivity|]. left. now rewrite Gx.
Qed.

(** An answer implies that the code is valid: whenever [districtmatch]
    returns, or [coordinates] or [nearby] return something that is not
    empty, [isvalid] returns [True] on the same input and dataset. *)
Theorem answers_imply_valid (v : pyval) (max_diff : spec_float)
  (zips : option (list pydict)) :
  (forall s, districtmatch v zips = Ok s -> isvalid v zips = Ok true)
  /\ (forall m, coordinates v zips = Ok m -> m <> [] ->
        isvalid v zips = Ok true)
  /\ (forall out, nearby v max_diff zips = Ok out -> out <> [] ->
        isvalid v zips = Ok true).
Proof.
  assert (Hv : forall z,
             gate v = Ok z ->
             filter (has_code z) (or_default zips) <> [] ->
             isvalid v zips = Ok true).
  { intros z Hg Hne. rewrite (isvalid_exists _ _ _ Hg).
    rewrite <- filter_nonempty_existsb.
    destruct (filter (has_code z) (or_default zips)); [congruence|].
    reflexivity. }
  split; [|split].
  - intros s H. unfold districtmatch in H.
    destruct (run_ok_inv _ _ _ H) as [z [Hg Hb]].
    apply (Hv z Hg). intros Hnil.
    apply (districtmatch_body_ok _ _ _ Hb).
    unfold district_values. now rewrite Hnil.
  - intros m H Hm.
    destruct (run_ok_inv _ _ _ H) as [z [Hg _]].
    apply (Hv z Hg). intros Hnil.
    destruct (coordinates_run v z zips Hg) as [[_ Ho]|[_ Hr]];
      [|rewrite Hr in H; discriminate].
    rewrite Ho, Hnil in H. inversion H. congruence.
  - intros out H Hout.
    destruct (run_ok_inv _ _ _ H) as [z [Hg _]].
    apply (Hv z Hg). intros Hnil.
    destruct (nearby_ok_inv _ _ _ _ _ Hg H)
      as [[_ ->]|[c [rest [clat [clon [pins [Hc _]]]]]]]; [congruence|].
    destruct (center_has_position _ _ _ _ Hc) as [Hin [Hcode _]].
    assert (In c (filter (has_code z) (or_default zips)))
      by (apply filter_In; auto).
    rewrite Hnil in H0. contradiction.
Qed.

(** *** Queries on the answer of [matching] *)

Lemma districtmatch_body_values (z : pystr)
  (zips zips' : option (list pydict)) :
  district_values z (or_default zips)
  = district_values z (or_default zips') ->
  districtmatch_body z zips = districtmatch_body z zips'.
Proof.
  intros H. unfold districtmatch_body. now rewrite !district_loop, H.
Qed.

(** [districtmatch] and [coordinates] look at no other record than those
    [matching] returns: run on the answer of [matching] instead of the
    dataset, each gives the same result, exceptions included. *)
Theorem queries_on_matching (v : pyval) (z : pystr)
  (zips : option (list pydict)) (found : list pydict) :
  gate v = Ok z ->
  matching v zips = Ok found ->
  districtmatch v (Some found) = districtmatch v zips
  /\ coordinates v (Some found) = coordinates v zips
  /\ isvalid v (Some found) = isvalid v zips.
Proof.
  intros Hg H. rewrite (matching_filter _ _ _ Hg) in H.
  inversion H; subst found; clear H.
  pose proof (gate_of_validated _ _ Hg) as Hz.
  split; [|split].
  - unfold districtmatch. rewrite !(gate_ok_run _ _ _ Hg).
    apply districtmatch_body_values. unfold district_values.
    cbn [or_default]. now rewrite filter_idem.
  - unfold coordinates. rewrite !(gate_ok_run _ _ _ Hg).
    unfold coordinates_body. rewrite !(matching_filter _ _ _ Hz).
    cbn [or_default]. now rewrite filter_idem.
  - rewrite !(isvalid_exists _ _ _ Hg). cbn [or_default].
    rewrite <- !filter_nonempty_existsb. now rewrite filter_idem.
Qed.

End Indiapins.

(** ** The queries run on the sample data *)

(** C1 as written fails on six Arabic-Indic digits: a character that is not
    an ASCII digit is there, and the gate raises no [ValueError]. *)
Lemma gate_accepts_non_ascii_digits :
  ~ ((exists m, gate (PyStr Sample.arabic_indic) = Raise (Exc ValueError m))
     <-> (length Sample.arabic_indic <> 6%nat
          \/ exists c, In c Sample.arabic_indic /\ is_ascii_digit c = false)).
Proof.
  intros [_ H].
  assert (Hc : exists c, In c Sample.arabic_indic /\ is_ascii_digit c = false).
  { exists 0x661. split; [now left | reflexivity]. }
  destruct (H (or_intror Hc)) as [m Hm].
  vm_compute in Hm. discriminate.
Qed.

Lemma matching_spec_witness :
  gate (PyStr Sample.code_a) = Ok Sample.code_a
  /\ exists found,
       matching Sample.float_repr Sample.str_repr Sample.json_loads
         Sample.resource (PyStr Sample.code_a) (Some Sample.delhi_and_minto)
       = Ok found
       /\ found = [Sample.connaught; Sample.parliament].
Proof.
  split; [reflexivity|].
  destruct (matching_spec Sample.float_repr Sample.str_repr
              Sample.json_loads Sample.resource (PyStr Sample.code_a)
              Sample.code_a (Some Sample.delhi_and_minto))
    as [found [Hm [Hf _]]].
  - reflexivity.
  - exists found. split; [exact Hm|]. rewrite Hf. reflexivity.
Defined.

Lemma nearby_spec_witness :
  gate (PyStr Sample.code_a) = Ok Sample.code_a
  /\ nearby Sample.float_repr Sample.str_repr Sample.set_order
       Sample.json_loads Sample.resource (PyStr Sample.code_a)
       max_diff_default (Some Sample.delhi_and_minto)
     = Ok [Sample.code_b]
  /\ (~ In Sample.code_a [Sample.code_b]
      /\ NoDup [Sample.code_b]
      /\ StronglySorted str_lt [Sample.code_b]).
Proof.
  assert (H1 : gate (PyStr Sample.code_a) = Ok Sample.code_a)
    by reflexivity.
  assert (H2 : nearby Sample.float_repr Sample.str_repr Sample.set_order
                 Sample.json_loads Sample.resource (PyStr Sample.code_a)
                 max_diff_default (Some Sample.delhi_and_minto)
               = Ok [Sample.code_b])
    by (vm_compute; reflexivity).
  split; [exact H1|]. split; [exact H2|].
  exact (nearby_spec Sample.float_repr Sample.str_repr Sample.set_order
           Sample.json_loads Sample.resource (PyStr Sample.code_a)
           Sample.code_a max_diff_default (Some Sample.delhi_and_minto)
           [Sample.code_b] H1 H2).
Defined.

(** C5 as written fails where a district is the number 5: the set of
    district values of the code is not empty, and [districtmatch] returns
    no string but raises a [TypeError]. *)
Lemma districtmatch_number_raises :
  gate (PyStr Sample.code_a) = Ok Sample.code_a
  /\ district_values Sample.float_repr Sample.str_repr Sample.code_a
       Sample.numeric_district
     = [PyInt 5]
  /\ districtmatch Sample.float_repr Sample.str_repr Sample.set_order
       Sample.json_loads Sample.resource (PyStr Sample.code_a)
       (Some Sample.numeric_district)
     = raise_builtin TypeError
  /\ ~ (exists out,
          districtmatch Sample.float_repr Sample.str_repr Sample.set_order
            Sample.json_loads Sample.resource (PyStr Sample.code_a)
            (Some Sample.numeric_district)
          = Ok out).
Proof.
  split; [reflexivity|]. split; [reflexivity|]. split; [reflexivity|].
  intros [out H]. vm_compute in H. discriminate.
Qed.

Lemma districtmatch_spec_witness :
  districtmatch Sample.float_repr Sample.str_repr Sample.set_order
    Sample.json_loads Sample.resource (PyStr Sample.code_a)
    (Some Sample.delhi_and_minto)
  = Ok (lit "New Delhi")
  /\ exists names,
       NoDup names
       /\ (forall x,
             In x names
             <-> In (PyStr x)
                   (district_values Sample.float_repr Sample.str_repr
                      Sample.code_a Sample.delhi_and_minto))
       /\ districtmatch Sample.float_repr Sample.str_repr Sample.set_order
            Sample.json_loads Sample.resource (PyStr Sample.code_a)
            (Some Sample.delhi_and_minto)
          = Ok (join (lit ", ") names).
Proof.
  split; [vm_compute; reflexivity|].
  refine (proj2
            (districtmatch_spec Sample.float_repr Sample.str_repr
               Sample.set_order Sample.json_loads Sample.resource
               (PyStr Sample.code_a) Sample.code_a
               (Some Sample.delhi_and_minto) _ _) _).
  - reflexivity.
  - repeat constructor.
  - discriminate.
Defined.

(** C6 as written fails where a name is a list: the record is one of those
    [matching] returns, and [coordinates] returns no mapping but raises a
    [TypeError]. *)
Lemma coordinates_list_name_raises :
  matching Sample.float_repr Sample.str_repr Sample.json_loads
    Sample.resource (PyStr Sample.code_a) (Some Sample.list_name)
  = Ok Sample.list_name
  /\ coordinates Sample.float_repr Sample.str_repr Sample.json_loads
       Sample.resource (PyStr Sample.code_a) (Some Sample.list_name)
     = raise_builtin TypeError
  /\ ~ (exists m,
          coordinates Sample.float_repr Sample.str_repr Sample.json_loads
            Sample.resource (PyStr Sample.code_a) (Some Sample.list_name)
          = Ok m).
Proof.
  split; [reflexivity|]. split; [reflexivity|].
  intros [m H]. vm_compute in H. discriminate.
Qed.

Lemma coordinates_spec_witness :
  exists m,
    coordinates Sample.float_repr Sample.str_repr Sample.json_loads
      Sample.resource (PyStr Sample.code_a) (Some Sample.delhi_and_minto)
    = Ok m
    /\ coords_lookup (PyStr (lit "Parliament St")) m
       = Some {| latitude := lit "28.63"; longitude := lit "77.21" |}.
Proof.
  destruct (coordinates_spec Sample.float_repr Sample.str_repr
              Sample.json_loads Sample.resource (PyStr Sample.code_a)
              Sample.code_a (Some Sample.delhi_and_minto))
    as [m [Hm [Hl _]]].
  - reflexivity.
  - repeat constructor.
  - exists m. split; [exact Hm|]. rewrite Hl. reflexivity.
Defined.

Lemma absent_code_witness :
  matching Sample.float_repr Sample.str_repr Sample.json_loads
    Sample.resource (PyStr (lit "999999")) (Some Sample.delhi_and_minto)
  = Ok []
  /\ isvalid Sample.float_repr Sample.str_repr Sample.json_loads
       Sample.resource (PyStr (lit "999999")) (Some Sample.delhi_and_minto)
     = Ok false
  /\ districtmatch Sample.float_repr Sample.str_repr Sample.set_order
       Sample.json_loads Sample.resource (PyStr (lit "999999"))
       (Some Sample.delhi_and_minto)
     = raise_msg ValueError "Invalid Pincode, not found in database"
  /\ coordinates Sample.float_repr Sample.str_repr Sample.json_loads
       Sample.resource (PyStr (lit "999999")) (Some Sample.delhi_and_minto)
     = Ok []
  /\ forall max_diff,
       nearby Sample.float_repr Sample.str_repr Sample.set_order
         Sample.json_loads Sample.resource (PyStr (lit "999999")) max_diff
         (Some Sample.delhi_and_minto)
       = Ok [].
Proof.
  apply (absent_code Sample.float_repr Sample.str_repr Sample.set_order
           Sample.json_loads Sample.resource (PyStr (lit "999999"))
           (lit "999999") (Some Sample.delhi_and_minto)).
  - reflexivity.
  - intros e [<-|[<-|[<-|[]]]]; reflexivity.
Defined.

Lemma load_keeps_decodable_lines_witness :
  load Sample.json_loads Sample.resource
  = [[(lit "Pincode", PyInt 110001)]]
  /\ length (load Sample.json_loads Sample.resource) = 1%nat.
Proof.
  split; [reflexivity|].
  refine (proj2 (proj2 (proj2 (load_keeps_decodable_lines
                                 Sample.json_loads)))
            Sample.resource Sample.valid_line Sample.bad_line
            Sample.blank_line [(lit "Pincode", PyInt 110001)]
            _ _ _ _ _ _ _).
  - reflexivity.
  - discriminate.
  - reflexivity.
  - reflexivity.
  - discriminate.
  - reflexivity.
  - reflexivity.
Defined.

Lemma strip_deep_line : strip Sample.deep_line = Sample.deep_text.
Proof.
  unfold Sample.deep_line, Sample.deep_text. rewrite iter_block.
  apply strip_block; [reflexivity|].
  pose proof (Pos2Nat.is_pos 200000). lia.
Qed.

(** C8, at a resource on which it fails.  The first line, 200000 opening
    brackets, makes [json.loads] raise a [RecursionError]: the loop ends
    there, and the dataset is empty although the second line is an object
    with the code field; the lines that strip to text, decode to a mapping
    and carry the code field give one record. *)
Theorem load_stops_at_undecodable_line :
  strip Sample.deep_line <> []
  /\ Sample.json_loads (strip Sample.deep_line) = OtherError
  /\ flat_map (contribution Sample.json_loads) Sample.deep_resource
     = [[(lit "Pincode", PyInt 110001)]]
  /\ load Sample.json_loads Sample.deep_resource = []
  /\ load Sample.json_loads (tl Sample.deep_resource)
     = [[(lit "Pincode", PyInt 110001)]].
Proof.
  assert (H1 : strip Sample.deep_line <> []).
  { rewrite strip_deep_line. intros H.
    apply (f_equal (fun l : pystr =>
                      match l with [] => true | _ => false end)) in H.
    vm_compute in H. discriminate. }
  assert (H2 : Sample.json_loads (strip Sample.deep_line) = OtherError)
    by (rewrite strip_deep_line; vm_compute; reflexivity).
  unfold Sample.deep_resource.
  destruct (load_abort_first Sample.json_loads Sample.deep_line
              [Sample.valid_line; Sample.blank_line] H1 H2)
    as [Hl Hc].
  split; [exact H1|]. split; [exact H2|]. split; [|split].
  - rewrite Hc. reflexivity.
  - exact Hl.
  - reflexivity.
Qed.

Lemma failure_classes_witness :
  exists e1 e2 e3,
    districtmatch Sample.float_repr Sample.str_repr Sample.set_order
      Sample.json_loads Sample.resource (PyStr (lit "11000a"))
      (Some Sample.delhi)
    = Raise e1
    /\ districtmatch Sample.float_repr Sample.str_repr Sample.set_order
         Sample.json_loads Sample.resource (PyStr (lit "999999"))
         (Some Sample.delhi)
       = Raise e2
    /\ districtmatch Sample.float_repr Sample.str_repr Sample.set_order
         Sample.json_loads Sample.resource PyNone (Some Sample.delhi)
       = Raise e3
    /\ exc_class e1 = ValueError
    /\ exc_class e2 = ValueError
    /\ exc_class e3 = TypeError
    /\ exc_class e1 = exc_class e2
    /\ exc_class e3 <> exc_class e1
    /\ exc_msg e1 <> exc_msg e2.
Proof.
  apply (failure_classes Sample.float_repr Sample.str_repr Sample.set_order
           Sample.json_loads Sample.resource (PyStr (lit "11000a"))
           (PyStr (lit "999999")) PyNone (lit "11000a") (lit "999999")
           (Some Sample.delhi) (Some Sample.delhi) (Some Sample.delhi)).
  - reflexivity.
  - discriminate.
  - right. exists 0x61. split; [simpl; tauto | reflexivity].
  - reflexivity.
  - reflexivity.
  - intros [s [E _]]. discriminate.
Defined.

Lemma nearby_symmetric_witness :
  (exists out,
     nearby Sample.float_repr Sample.str_repr Sample.set_order
       Sample.json_loads Sample.resource (PyStr Sample.code_a)
       max_diff_default (Some Sample.delhi_and_minto)
     = Ok out /\ In Sample.code_b out)
  /\ (exists out,
        nearby Sample.float_repr Sample.str_repr Sample.set_order
          Sample.json_loads Sample.resource (PyStr Sample.code_b)
          max_diff_default (Some Sample.delhi_and_minto)
        = Ok out /\ In Sample.code_a out).
Proof.
  refine (nearby_symmetric Sample.float_repr Sample.str_repr
            Sample.set_order Sample.json_loads Sample.resource
            (PyStr Sample.code_a) (PyStr Sample.code_b)
            Sample.code_a Sample.code_b max_diff_default
            (Some Sample.delhi_and_minto)
            Sample.connaught Sample.minto [Sample.parliament] []
            (float_of_decimal false 2863 (-2),
             float_of_decimal false 7722 (-2))
            (float_of_decimal false 2864 (-2),
             float_of_decimal false 7723 (-2))
            _ _ _ _ _ _ _ _ _).
  - reflexivity.
  - reflexivity.
  - discriminate.
  - reflexivity.
  - reflexivity.
  - vm_compute; reflexivity.
  - vm_compute; reflexivity.
  - repeat constructor; intros _; eexists; vm_compute; reflexivity.
  - vm_compute; reflexivity.
Defined.

Lemma matching_compose_witness :
  matching Sample.float_repr Sample.str_repr Sample.json_loads
    Sample.resource (PyStr Sample.code_a)
    (Some (Sample.delhi ++ [Sample.minto]))
  = (a <- matching Sample.float_repr Sample.str_repr Sample.json_loads
            Sample.resource (PyStr Sample.code_a) (Some Sample.delhi) ;;
     b <- matching Sample.float_repr Sample.str_repr Sample.json_loads
            Sample.resource (PyStr Sample.code_a) (Some [Sample.minto]) ;;
     Ok (a ++ b)).
Proof.
  apply (proj1 (matching_compose Sample.float_repr Sample.str_repr
                  Sample.json_loads Sample.resource (PyStr Sample.code_a)
                  Sample.code_a eq_refl)).
Defined.

Lemma loaded_records_carry_code_witness :
  In [(lit "Pincode", PyInt 110001)]
    (load Sample.json_loads Sample.resource)
  /\ exists code,
       dict_find (lit "Pincode") [(lit "Pincode", PyInt 110001)] = Some code
       /\ dict_item (lit "Pincode") [(lit "Pincode", PyInt 110001)] = Ok code.
Proof.
  assert (H : In [(lit "Pincode", PyInt 110001)]
                (load Sample.json_loads Sample.resource)) by (now left).
  split; [exact H|].
  exact (proj1 (loaded_records_carry_code Sample.json_loads Sample.resource
                  [(lit "Pincode", PyInt 110001)] H)).
Defined.

Lemma districtmatch_rejects_non_text_witness :
  districtmatch Sample.float_repr Sample.str_repr Sample.set_order
    Sample.json_loads Sample.resource (PyStr Sample.code_a)
    (Some Sample.numeric_district)
  = raise_builtin TypeError.
Proof.
  apply (districtmatch_rejects_non_text Sample.float_repr Sample.str_repr
           Sample.set_order Sample.json_loads Sample.resource
           (PyStr Sample.code_a) Sample.code_a
           (Some Sample.numeric_district)).
  - reflexivity.
  - constructor. reflexivity.
Defined.

Lemma districtmatch_single_witness :
  districtmatch Sample.float_repr Sample.str_repr Sample.set_order
    Sample.json_loads Sample.resource (PyStr Sample.code_a)
    (Some Sample.delhi_and_minto)
  = Ok (lit "New Delhi").
Proof.
  apply (districtmatch_single Sample.float_repr Sample.str_repr
           Sample.set_order Sample.json_loads Sample.resource
           (PyStr Sample.code_a) Sample.code_a (lit "New Delhi")
           (Some Sample.delhi_and_minto)).
  - reflexivity.
  - discriminate.
  - repeat constructor.
Defined.

Lemma districtmatch_errors_witness :
  districtmatch Sample.float_repr Sample.str_repr Sample.set_order
    Sample.json_loads Sample.resource (PyStr (lit "999999"))
    (Some Sample.delhi)
  = raise_msg ValueError "Invalid Pincode, not found in database"
  /\ ((Exc ValueError (Some "Invalid Pincode, not found in database"%string)
       = Exc ValueError (Some "Invalid Pincode, not found in database"%string)
       /\ district_values Sample.float_repr Sample.str_repr (lit "999999")
            Sample.delhi = [])
      \/ (Exc ValueError (Some "Invalid Pincode, not found in database"%string)
          = Exc TypeError None
          /\ Exists (fun d => isinstance_str d = false)
               (district_values Sample.float_repr Sample.str_repr
                  (lit "999999") Sample.delhi))).
Proof.
  split; [reflexivity|].
  apply (districtmatch_errors Sample.float_repr Sample.str_repr
           Sample.set_order Sample.json_loads Sample.resource
           (PyStr (lit "999999")) (lit "999999") (Some Sample.delhi)).
  - reflexivity.
  - reflexivity.
Defined.

Lemma coordinates_raises_iff_witness :
  exists m,
    coordinates Sample.float_repr Sample.str_repr Sample.json_loads
      Sample.resource (PyStr Sample.code_a) (Some Sample.delhi)
    = Ok m.
Proof.
  apply (proj1 (proj2 (coordinates_raises_iff Sample.float_repr
                         Sample.str_repr Sample.json_loads Sample.resource
                         (PyStr Sample.code_a) Sample.code_a
                         (Some Sample.delhi) eq_refl))).
  repeat constructor.
Defined.

Lemma coordinates_size_witness :
  (length
     (coords_fold Sample.float_repr Sample.str_repr Sample.delhi [])
   <= length (filter (has_code Sample.float_repr Sample.str_repr
                        Sample.code_a) Sample.delhi_and_minto))%nat.
Proof.
  apply (coordinates_size Sample.float_repr Sample.str_repr
           Sample.json_loads Sample.resource (PyStr Sample.code_a)
           Sample.code_a (Some Sample.delhi_and_minto)
           (coords_fold Sample.float_repr Sample.str_repr Sample.delhi [])).
  - reflexivity.
  - reflexivity.
Defined.

Lemma nearby_membership_witness :
  nearby Sample.float_repr Sample.str_repr Sample.set_order
    Sample.json_loads Sample.resource (PyStr Sample.code_a)
    max_diff_default (Some Sample.delhi_and_minto)
  = Ok [Sample.code_b]
  /\ (In Sample.code_a [Sample.code_b] -> Sample.code_a <> Sample.code_a).
Proof.
  assert (H : nearby Sample.float_repr Sample.str_repr Sample.set_order
                Sample.json_loads Sample.resource (PyStr Sample.code_a)
                max_diff_default (Some Sample.delhi_and_minto)
              = Ok [Sample.code_b]) by (vm_compute; reflexivity).
  split; [exact H|].
  intros Hin.
  exact (proj1 (proj1 (nearby_membership Sample.float_repr Sample.str_repr
                         Sample.set_order Sample.json_loads Sample.resource
                         (PyStr Sample.code_a) Sample.code_a
                         max_diff_default (Some Sample.delhi_and_minto)
                         [Sample.code_b] Sample.code_a eq_refl H) Hin)).
Defined.

Lemma nearby_without_position_witness :
  nearby Sample.float_repr Sample.str_repr Sample.set_order
    Sample.json_loads Sample.resource (PyStr Sample.code_a)
    max_diff_default (Some Sample.numeric_district)
  = Ok [].
Proof.
  apply (nearby_without_position Sample.float_repr Sample.str_repr
           Sample.set_order Sample.json_loads Sample.resource
           (PyStr Sample.code_a) Sample.code_a max_diff_default
           (Some Sample.numeric_district)).
  - reflexivity.
  - intros e [<-|[]] _. reflexivity.
Defined.

Lemma nearby_monotone_witness :
  exists out',
    nearby Sample.float_repr Sample.str_repr Sample.set_order
      Sample.json_loads Sample.resource (PyStr Sample.code_a)
      (float_of_decimal false 1 0) (Some Sample.delhi_and_minto)
    = Ok out'
    /\ incl [Sample.code_b] out'.
Proof.
  apply (nearby_monotone Sample.float_repr Sample.str_repr Sample.set_order
           Sample.json_loads Sample.resource (PyStr Sample.code_a)
           Sample.code_a max_diff_default (float_of_decimal false 1 0)
           (Some Sample.delhi_and_minto) [Sample.code_b]).
  - reflexivity.
  - vm_compute; reflexivity.
  - vm_compute; reflexivity.
Defined.

Lemma nearby_threshold_below_zero_witness :
  nearby Sample.float_repr Sample.str_repr Sample.set_order
    Sample.json_loads Sample.resource (PyStr Sample.code_a)
    (float_of_decimal true 1 0) (Some Sample.delhi_and_minto)
  = Ok []
  /\ @nil pystr = [].
Proof.
  assert (H : nearby Sample.float_repr Sample.str_repr Sample.set_order
                Sample.json_loads Sample.resource (PyStr Sample.code_a)
                (float_of_decimal true 1 0) (Some Sample.delhi_and_minto)
              = Ok []) by (vm_compute; reflexivity).
  split; [exact H|].
  apply (nearby_threshold_below_zero Sample.float_repr Sample.str_repr
           Sample.set_order Sample.json_loads Sample.resource
           (PyStr Sample.code_a) Sample.code_a (float_of_decimal true 1 0)
           (Some Sample.delhi_and_minto) []).
  - reflexivity.
  - vm_compute; reflexivity.
  - exact H.
Defined.

Lemma nearby_errors_witness :
  nearby Sample.float_repr Sample.str_repr Sample.set_order
    Sample.json_loads Sample.resource (PyStr Sample.code_a)
    max_diff_default (Some Sample.bad_center)
  = Raise (Exc ValueError None)
  /\ (Exc ValueError None = Exc ValueError None
      \/ Exc ValueError None = Exc TypeError None
      \/ Exc ValueError None = Exc OverflowError None).
Proof.
  assert (H : nearby Sample.float_repr Sample.str_repr Sample.set_order
                Sample.json_loads Sample.resource (PyStr Sample.code_a)
                max_diff_default (Some Sample.bad_center)
              = Raise (Exc ValueError None)) by (vm_compute; reflexivity).
  split; [exact H|].
  exact (proj1 (nearby_errors Sample.float_repr Sample.str_repr
                  Sample.set_order Sample.json_loads Sample.resource
                  (PyStr Sample.code_a) Sample.code_a max_diff_default
                  (Some Sample.bad_center) (Exc ValueError None)
                  eq_refl H)).
Defined.

Lemma queries_on_matching_witness :
  districtmatch Sample.float_repr Sample.str_repr Sample.set_order
    Sample.json_loads Sample.resource (PyStr Sample.code_a)
    (Some Sample.delhi)
  = districtmatch Sample.float_repr Sample.str_repr Sample.set_order
      Sample.json_loads Sample.resource (PyStr Sample.code_a)
      (Some Sample.delhi_and_minto).
Proof.
  apply (proj1 (queries_on_matching Sample.float_repr Sample.str_repr
                  Sample.set_order Sample.json_loads Sample.resource
                  (PyStr Sample.code_a) Sample.code_a
                  (Some Sample.delhi_and_minto) Sample.delhi
                  eq_refl eq_refl)).
Defined.
